(** * Porter: the application release reconciler

    A shallow embedding of two pieces of the Porter code base:

    - [cli/.../stack] hook, method [applyStack] (image resolution from the
      build driver output, then the create or update call);
    - [api/server/handlers/porter_app/create.go], method [ServeHTTP] of
      [CreatePorterAppHandler] with its helpers [createPorterAppEvent] and
      [createReleaseJobChart].

    The handler talks to a Helm agent, a Kubernetes agent, the relational
    repository and the templating step.  None of them is part of the handler;
    they are modelled as an arbitrary deterministic environment that answers
    each call from the history of the calls made so far.  Running the handler
    yields the trace of its calls and of the responses it wrote. *)

From Stdlib Require Import ZArith Lia Ascii String DecimalString.
From stdpp Require Import base strings gmap list.

Open Scope Z_scope.
Open Scope string_scope.
Open Scope list_scope.

(** ** Go values shared by both packages *)

(** Go's [error] value; only its message matters here. *)
Definition error := string.

(** A Go call returning [(T, error)], under the usual convention that exactly
    one of the two components is meaningful. *)
Inductive result (T : Type) : Type :=
| Ok (t : T)
| Err (e : error).
Arguments Ok {T} t.
Arguments Err {T} e.

(** The dynamic values met behind an [interface{}]. *)
Inductive iface : Type :=
| INil
| IBool (b : bool)
| IInt (z : Z)
| IString (s : string).

(** [types.ImageInfo] *)
Record ImageInfo : Type := mkImageInfo {
  Repository : string;
  Tag : string
}.

Definition zeroImageInfo : ImageInfo := mkImageInfo "" "".

Module Stack.

(** ** [strings.Split] with a one-character separator *)

Fixpoint Split (s : string) (sep : ascii) : list string :=
  match s with
  | EmptyString => [EmptyString]
  | String a rest =>
      if Ascii.eqb a sep then EmptyString :: Split rest sep
      else match Split rest sep with
           | piece :: pieces => String a piece :: pieces
           | [] => [String a EmptyString]
           end
  end.

(** The outcome of running Go code that may panic. *)
Inductive outcome (A : Type) : Type :=
| Returned (a : A)
| Panicked (msg : string).
Arguments Returned {A} a.
Arguments Panicked {A} msg.

(** Slice indexing [l[i]]: a run-time panic when [i] is out of range. *)
Definition index {A : Type} (l : list A) (i : nat) : outcome A :=
  match l !! i with
  | Some x => Returned x
  | None => Panicked "index out of range"
  end.

Definition colon : ascii := ":"%char.

(** Whether the character [c] occurs in [s]. *)
Fixpoint occurs (c : ascii) (s : string) : bool :=
  match s with
  | EmptyString => false
  | String a rest => Ascii.eqb a c || occurs c rest
  end.

(** [applyStack], lines 64-73: the image handed over by the build driver.
    [driverOutput["image"].(string)] succeeds only on a string value. *)
Definition applyStack_imageInfo (driverOutput : gmap string iface) : outcome ImageInfo :=
  match driverOutput !! "image" with
  | Some (IString image) =>
      if decide (image = "") then Returned zeroImageInfo
      else
        let imageSpl := Split image colon in
        match index imageSpl 0 with
        | Panicked m => Panicked m
        | Returned repo =>
            match index imageSpl 1 with
            | Panicked m => Panicked m
            | Returned tag => Returned (mkImageInfo repo tag)
            end
        end
  | _ => Returned zeroImageInfo
  end.

(** [types.CreateStackReleaseRequest] as [applyStack] fills it. *)
Record CreateStackReleaseRequest : Type := mkCreateStackReleaseRequest {
  csr_StackName : string;
  csr_PorterYAMLBase64 : string;
  csr_ImageInfo : ImageInfo
}.

Record DeployStackHook : Type := mkDeployStackHook {
  StackName : string;
  ProjectID : Z;
  ClusterID : Z;
  BuildImageDriverName : string;
  PorterYAML : string
}.

(** The API client of the hook: the two calls [applyStack] makes, and the
    standard base64 encoder. *)
Record Client : Type := mkClient {
  CreateStack : Z -> Z -> CreateStackReleaseRequest -> option error;
  UpdateStack : Z -> Z -> string -> CreateStackReleaseRequest -> option error;
  EncodeToString : string -> string
}.

(** [applyStack], lines 63-107. *)
Definition applyStack (client : Client) (t : DeployStackHook) (shouldCreate : bool)
    (driverOutput : gmap string iface) : outcome (option error) :=
  match applyStack_imageInfo driverOutput with
  | Panicked m => Panicked m
  | Returned imageInfo =>
      let req := mkCreateStackReleaseRequest (StackName t)
                   (EncodeToString client (PorterYAML t)) imageInfo in
      if shouldCreate then
        match CreateStack client (ProjectID t) (ClusterID t) req with
        | Some err =>
            Returned (Some ("error creating stack " +:+ StackName t +:+ ": " +:+ err))
        | None => Returned None
        end
      else
        match UpdateStack client (ProjectID t) (ClusterID t) (StackName t) req with
        | Some err =>
            Returned (Some ("error updating stack " +:+ StackName t +:+ ": " +:+ err))
        | None => Returned None
        end
  end.

(** How often the character [c] occurs in [s]. *)
Fixpoint occurrences (c : ascii) (s : string) : nat :=
  match s with
  | EmptyString => 0%nat
  | String a rest => ((if Ascii.eqb a c then 1 else 0) + occurrences c rest)%nat
  end.

(** [PostApply], lines 40-61: probe the release, then create or update.
    [GetRelease] is the call of the API client that [Client] leaves out; the
    messages printed to the terminal are not modelled. *)
Definition PostApply (GetRelease : Z -> Z -> string -> string -> option error)
    (client : Client) (t : DeployStackHook) (driverOutput : gmap string iface)
    : outcome (option error) :=
  let namespace := "porter-stack-" +:+ StackName t in
  let err := GetRelease (ProjectID t) (ClusterID t) namespace (StackName t) in
  let shouldCreate := match err with Some _ => true | None => false end in
  applyStack client t shouldCreate driverOutput.

End Stack.

Module PorterApp.

(** ** Data of the handler *)

(** A Go [map[string]interface{}]; [None] is the nil map. *)
Definition gomap : Type := option (gmap string iface).

Definition isNil (m : gomap) : bool :=
  match m with
  | None => true
  | Some _ => false
  end.

(** [chart.Chart], reduced to what the handler reads from it. *)
Record Chart : Type := mkChart {
  chart_Name : string;
  chart_Dependencies : list string
}.

(** [release.Release] of the Helm agent. *)
Record Release : Type := mkRelease {
  rel_Name : string;
  rel_Config : gomap;
  rel_Chart : Chart;
  rel_Version : Z
}.

(** [types.CreatePorterAppRequest] *)
Record CreatePorterAppRequest : Type := mkRequest {
  req_RepoName : string;
  req_GitRepoID : Z;
  req_GitBranch : string;
  req_BuildContext : string;
  req_Builder : string;
  req_Buildpacks : string;
  req_Dockerfile : string;
  req_ImageRepoURI : string;
  req_PullRequestURL : string;
  req_PorterYamlPath : string;
  req_PorterYAMLBase64 : string;
  req_ImageInfo : ImageInfo;
  req_OverrideRelease : bool
}.

(** The assignment [request.Builder = b]. *)
Definition set_req_Builder (request : CreatePorterAppRequest) (b : string)
    : CreatePorterAppRequest :=
  mkRequest (req_RepoName request) (req_GitRepoID request) (req_GitBranch request)
    (req_BuildContext request) b (req_Buildpacks request) (req_Dockerfile request)
    (req_ImageRepoURI request) (req_PullRequestURL request) (req_PorterYamlPath request)
    (req_PorterYAMLBase64 request) (req_ImageInfo request) (req_OverrideRelease request).

(** [models.PorterApp] *)
Record PorterApp : Type := mkPorterApp {
  app_ID : Z;
  app_Name : string;
  app_ClusterID : Z;
  app_ProjectID : Z;
  app_RepoName : string;
  app_GitRepoID : Z;
  app_GitBranch : string;
  app_BuildContext : string;
  app_Builder : string;
  app_Buildpacks : string;
  app_Dockerfile : string;
  app_ImageRepoURI : string;
  app_PullRequestURL : string;
  app_PorterYamlPath : string
}.

(** [models.PorterAppEvent]; [Metadata] holds the single key ["revision"]. *)
Record PorterAppEvent : Type := mkPorterAppEvent {
  ev_ID : Z;
  ev_Status : string;
  ev_Type : string;
  ev_TypeExternalSource : string;
  ev_PorterAppID : Z;
  ev_revision : Z
}.

(** [uuid.Nil] *)
Definition uuid_Nil : Z := 0.

(** [helm.InstallChartConfig] *)
Record InstallChartConfig : Type := mkInstallChartConfig {
  icc_Chart : Chart;
  icc_Name : string;
  icc_Namespace : string;
  icc_Values : gomap;
  icc_ClusterID : Z;
  icc_Registries : list string
}.

(** [helm.UpgradeReleaseConfig] *)
Record UpgradeReleaseConfig : Type := mkUpgradeReleaseConfig {
  urc_Name : string;
  urc_ClusterID : Z;
  urc_Registries : list string;
  urc_Values : gomap;
  urc_Chart : Chart
}.

(** The arguments of [parse]. *)
Record ParseArgs : Type := mkParseArgs {
  pa_porterYaml : string;
  pa_imageInfo : ImageInfo;
  pa_projectID : Z;
  pa_releaseValues : gomap;
  pa_releaseDependencies : list string;
  pa_stackName : string;
  pa_injectLauncher : bool
}.

(** What [parse] returns on success: chart, values, release job values. *)
Record Parsed : Type := mkParsed {
  p_chart : Chart;
  p_values : gomap;
  p_releaseJobValues : gomap
}.

(** [apierrors.NewErrInternal] and [apierrors.NewErrPassThroughToClient]. *)
Inductive APIError : Type :=
| ErrInternal (msg : string)
| ErrPassThroughToClient (msg : string) (status : Z).

Definition StatusBadRequest : Z := 400.
Definition StatusForbidden : Z := 403.

(** The incoming HTTP request, as the decoding layer presents it: the scopes
    put in the context, the outcome of [DecodeAndValidate] ([None] when it
    fails) and of [GetURLParamString]. *)
Record HttpRequest : Type := mkHttpRequest {
  http_project_ID : Z;
  http_cluster_ID : Z;
  http_cluster_ProjectID : Z;
  http_body : option CreatePorterAppRequest;
  http_stackName : result string
}.

(** ** Calls and traces *)

Inductive Event : Type :=
| EGetHelmAgent (namespace : string) (r : option error)
| EGetAgent (namespace : string) (r : option error)
| EGetRelease (name : string) (r : result Release)
| EListRegistriesByProjectID (projectID : Z) (r : result (list string))
| EReadPorterAppByName (clusterID : Z) (name : string) (r : result PorterApp)
| EParse (args : ParseArgs) (r : result Parsed)
| ECreateNamespace (namespace : string) (r : option error)
| ELoadChartPublic (repoURL : string) (r : result Chart)
| EInstallChart (conf : InstallChartConfig) (r : result Release)
| EUninstallChart (name : string) (r : option error)
| EUpgradeReleaseByValues (conf : UpgradeReleaseConfig) (r : result Release)
| EUpgradeInstallChart (conf : InstallChartConfig) (r : result Release)
| EUpdatePorterApp (app : PorterApp) (r : result PorterApp)
| ECreateEvent (event : PorterAppEvent) (r : option error)
| EHandleAPIError (e : APIError)
| EWriteResult (app : PorterApp)
| EPanic (msg : string).

Definition Trace : Type := list Event.

(** [config.Config], reduced to the settings the handler passes on. *)
Record Config : Type := mkConfig {
  DefaultApplicationHelmRepoURL : string;
  Metadata_DefaultAppHelmRepoURL : string;
  AppRootDomain : string
}.

(** The collaborators.  Every effectful one answers from the trace so far, so
    any deterministic, stateful behaviour is an instance. *)
Record World : Type := mkWorld {
  w_Config : Config;
  (* base64.StdEncoding.DecodeString *)
  w_DecodeString : string -> result string;
  (* attemptToGetImageInfoFromRelease, same package, other file *)
  w_attemptToGetImageInfoFromRelease : gomap -> ImageInfo;
  w_GetHelmAgent : Trace -> string -> option error;
  w_GetAgent : Trace -> string -> option error;
  w_GetRelease : Trace -> string -> result Release;
  w_ListRegistriesByProjectID : Trace -> Z -> result (list string);
  w_ReadPorterAppByName : Trace -> Z -> string -> result PorterApp;
  w_parse : Trace -> ParseArgs -> result Parsed;
  w_CreateNamespace : Trace -> string -> option error;
  w_LoadChartPublic : Trace -> string -> result Chart;
  w_InstallChart : Trace -> InstallChartConfig -> result Release;
  w_UninstallChart : Trace -> string -> option error;
  w_UpgradeReleaseByValues : Trace -> UpgradeReleaseConfig -> result Release;
  w_UpgradeInstallChart : Trace -> InstallChartConfig -> result Release;
  w_UpdatePorterApp : Trace -> PorterApp -> result PorterApp;
  (* uuid.New *)
  w_uuid_New : Trace -> Z;
  (* CreateEvent receives a pointer: the error and the ID it leaves behind *)
  w_CreateEvent : Trace -> PorterAppEvent -> option error * Z
}.

(** ** The handler monad: a trace, and Go's early [return] *)

Definition M (A : Type) : Type := Trace -> option A * Trace.

Definition ret {A : Type} (a : A) : M A := fun t => (Some a, t).

Definition bind {A B : Type} (m : M A) (k : A -> M B) : M B :=
  fun t =>
    match m t with
    | (Some a, t') => k a t'
    | (None, t') => (None, t')
    end.

(** [return] from the handler: nothing after it runs. *)
Definition exit {A : Type} : M A := fun t => (None, t).

(** A call to a collaborator: ask, then log call and answer. *)
Definition call {R : Type} (oracle : Trace -> R) (log : R -> Event) : M R :=
  fun t => let r := oracle t in (Some r, t ++ [log r]).

Definition emit (e : Event) : M unit := fun t => (Some tt, t ++ [e]).

(** Reading through a pointer: a nil pointer panics and ends the handler. *)
Definition deref {A : Type} (p : option A) : M A :=
  fun t =>
    match p with
    | Some a => (Some a, t)
    | None => (None, t ++ [EPanic "nil pointer dereference"])
    end.

Declare Scope go_scope.
Delimit Scope go_scope with go.
Notation "x <- m ;; k" := (bind m (fun x => k))
  (at level 100, m at next level, right associativity) : go_scope.
Notation "m ;; k" := (bind m (fun _ => k))
  (at level 100, right associativity) : go_scope.
Open Scope go_scope.

(** [strings.Contains] *)
Fixpoint Contains (s substr : string) : bool :=
  if String.prefix substr s then true
  else match s with
       | EmptyString => false
       | String _ rest => Contains rest substr
       end.

(** Go's [int] is 64 bits wide here; [+] wraps around. *)
Definition wrap_int (z : Z) : Z := (z + 2 ^ 63) mod 2 ^ 64 - 2 ^ 63.

Definition int_add (a b : Z) : Z := wrap_int (a + b).

(** The name of the release job of a stack: [fmt.Sprintf("%s-r", stackName)]. *)
Definition releaseJobNameOf (stackName : string) : string := stackName +:+ "-r".

(** [fmt.Sprintf("porter-stack-%s", stackName)] *)
Definition namespaceOf (stackName : string) : string := "porter-stack-" +:+ stackName.

(** Lines 322-357: the field rules of the update path, applied to the row
    just read.  Go assigns in place; here the patched row is returned. *)
Definition patchPorterApp (request : CreatePorterAppRequest) (app : PorterApp) : PorterApp :=
  mkPorterApp
    (app_ID app)
    (app_Name app)
    (app_ClusterID app)
    (app_ProjectID app)
    (if decide (req_RepoName request = "") then app_RepoName app else req_RepoName request)
    (app_GitRepoID app)
    (if decide (req_GitBranch request = "") then app_GitBranch app else req_GitBranch request)
    (if decide (req_BuildContext request = "") then app_BuildContext app
     else req_BuildContext request)
    (if decide (req_Builder request = "") then app_Builder app
     else if decide (req_Builder request = "null") then "" else req_Builder request)
    (if decide (req_Buildpacks request = "") then app_Buildpacks app
     else if decide (req_Buildpacks request = "null") then "" else req_Buildpacks request)
    (if decide (req_Dockerfile request = "") then app_Dockerfile app
     else if decide (req_Dockerfile request = "null") then "" else req_Dockerfile request)
    (if decide (req_ImageRepoURI request = "") then app_ImageRepoURI app
     else req_ImageRepoURI request)
    (if decide (req_PullRequestURL request = "") then app_PullRequestURL app
     else req_PullRequestURL request)
    (app_PorterYamlPath app).

(** Lines 207-222: the row of the create path. *)
Definition newPorterApp (r : HttpRequest) (stackName : string)
    (request : CreatePorterAppRequest) : PorterApp :=
  mkPorterApp 0 stackName (http_cluster_ID r) (http_project_ID r)
    (req_RepoName request) (req_GitRepoID request) (req_GitBranch request)
    (req_BuildContext request) (req_Builder request) (req_Buildpacks request)
    (req_Dockerfile request) (req_ImageRepoURI request) (req_PullRequestURL request)
    (req_PorterYamlPath request).

Section Handler.

Context (w : World).

(** *** The collaborators as monadic calls *)

(** The two ways the handler answers.  [WriteResult] receives
    [porterApp.ToPorterAppType()], a field-by-field copy of the row, which is
    recorded here as the row itself. *)
Definition HandleAPIError (e : APIError) : M unit := emit (EHandleAPIError e).
Definition WriteResult (app : PorterApp) : M unit := emit (EWriteResult app).

Definition GetHelmAgent (namespace : string) : M (option error) :=
  call (fun t => w_GetHelmAgent w t namespace) (EGetHelmAgent namespace).
Definition GetAgent (namespace : string) : M (option error) :=
  call (fun t => w_GetAgent w t namespace) (EGetAgent namespace).
Definition GetRelease (name : string) : M (result Release) :=
  call (fun t => w_GetRelease w t name) (EGetRelease name).
Definition ListRegistriesByProjectID (projectID : Z) : M (result (list string)) :=
  call (fun t => w_ListRegistriesByProjectID w t projectID)
       (EListRegistriesByProjectID projectID).
Definition ReadPorterAppByName (clusterID : Z) (name : string) : M (result PorterApp) :=
  call (fun t => w_ReadPorterAppByName w t clusterID name) (EReadPorterAppByName clusterID name).
Definition parse (args : ParseArgs) : M (result Parsed) :=
  call (fun t => w_parse w t args) (EParse args).
Definition CreateNamespace (namespace : string) : M (option error) :=
  call (fun t => w_CreateNamespace w t namespace) (ECreateNamespace namespace).
Definition LoadChartPublic (repoURL : string) : M (result Chart) :=
  call (fun t => w_LoadChartPublic w t repoURL) (ELoadChartPublic repoURL).
Definition InstallChart (conf : InstallChartConfig) : M (result Release) :=
  call (fun t => w_InstallChart w t conf) (EInstallChart conf).
Definition UninstallChart (name : string) : M (option error) :=
  call (fun t => w_UninstallChart w t name) (EUninstallChart name).
Definition UpgradeReleaseByValues (conf : UpgradeReleaseConfig) : M (result Release) :=
  call (fun t => w_UpgradeReleaseByValues w t conf) (EUpgradeReleaseByValues conf).
Definition UpgradeInstallChart (conf : InstallChartConfig) : M (result Release) :=
  call (fun t => w_UpgradeInstallChart w t conf) (EUpgradeInstallChart conf).
Definition UpdatePorterApp (app : PorterApp) : M (result PorterApp) :=
  call (fun t => w_UpdatePorterApp w t app) (EUpdatePorterApp app).
Definition uuid_New : M Z := fun t => (Some (w_uuid_New w t), t).
Definition CreateEvent (event : PorterAppEvent) : M (option error * Z) :=
  call (fun t => w_CreateEvent w t event) (fun r => ECreateEvent event (fst r)).

(** *** [createPorterAppEvent], lines 372-394 *)
Definition createPorterAppEvent (status : string) (appID : Z) (revision : Z)
    : M (option PorterAppEvent * option error) :=
  id <- uuid_New ;;
  let event := mkPorterAppEvent id status "DEPLOY" "KUBERNETES" appID revision in
  r <- CreateEvent event ;;
  (* the event as the repository left it behind the pointer *)
  let event := mkPorterAppEvent (snd r) status "DEPLOY" "KUBERNETES" appID revision in
  ret (match fst r with
       | Some err => (None, Some err)
       | None =>
           if decide (ev_ID event = uuid_Nil) then (None, None)
           else (Some event, None)
       end).

(** *** [createReleaseJobChart], lines 396-422 *)
Definition createReleaseJobChart (stackName : string) (values : gomap) (repoUrl : string)
    (registries : list string) (clusterID : Z) : M (result InstallChartConfig) :=
  r <- LoadChartPublic repoUrl ;;
  match r with
  | Err err => ret (Err err)
  | Ok chart =>
      let releaseName := releaseJobNameOf stackName in
      let namespace := namespaceOf stackName in
      ret (Ok (mkInstallChartConfig chart releaseName namespace values clusterID registries))
  end.

(** Lines 98-103: on a create or an override, an image not given in full by
    the request is looked up in the configuration of the existing release. *)
Definition imageInfoUnlessGiven (helmRelease : option Release) (imageInfo : ImageInfo)
    : ImageInfo :=
  match helmRelease with
  | Some rel =>
      if bool_decide (Repository imageInfo = "") || bool_decide (Tag imageInfo = "")
      then w_attemptToGetImageInfoFromRelease w (rel_Config rel)
      else imageInfo
  | None => imageInfo
  end.

(** Lines 111-114: [request.Builder] taken from the stored row when the read
    succeeds; a failed read is ignored. *)
Definition builderFromDB (request : CreatePorterAppRequest) (app : result PorterApp)
    : CreatePorterAppRequest :=
  match app with
  | Ok app => set_req_Builder request (app_Builder app)
  | Err _ => request
  end.

(** *** [ServeHTTP], lines 140-233: the arm taken when [shouldCreate] holds *)
Definition ServeHTTP_create (r : HttpRequest) (stackName namespace : string)
    (request : CreatePorterAppRequest) (registries : list string)
    (chart : Chart) (values releaseJobValues : gomap) : M unit :=
  (* create the namespace if it does not exist already *)
  err <- CreateNamespace namespace ;;
  match err with
  | Some err => HandleAPIError (ErrInternal ("error creating namespace: " +:+ err)) ;; exit
  | None => ret tt
  end ;;
  (* create the release job chart if it does not exist *)
  (if req_OverrideRelease request && negb (isNil releaseJobValues) then
     conf <- createReleaseJobChart stackName releaseJobValues
               (DefaultApplicationHelmRepoURL (w_Config w)) registries (http_cluster_ID r) ;;
     match conf with
     | Err err =>
         HandleAPIError (ErrInternal ("error making config for release job chart: " +:+ err)) ;;
         exit
     | Ok conf =>
         res <- InstallChart conf ;;
         match res with
         | Err err =>
             HandleAPIError (ErrInternal ("error creating release job chart: " +:+ err)) ;;
             err <- UninstallChart (releaseJobNameOf stackName) ;;
             match err with
             | Some err =>
                 HandleAPIError
                   (ErrInternal ("error uninstalling release job chart: " +:+ err))
             | None => ret tt
             end ;;
             exit
         | Ok _ => ret tt
         end
     end
   else ret tt) ;;
  let conf :=
    mkInstallChartConfig chart stackName namespace values (http_cluster_ID r) registries in
  (* create the app chart *)
  res <- InstallChart conf ;;
  match res with
  | Err err =>
      HandleAPIError
        (ErrPassThroughToClient ("error deploying app: " +:+ err) StatusBadRequest) ;;
      err <- UninstallChart stackName ;;
      match err with
      | Some err => HandleAPIError (ErrInternal ("error uninstalling chart: " +:+ err))
      | None => ret tt
      end ;;
      exit
  | Ok _ => ret tt
  end ;;
  existing <- ReadPorterAppByName (http_cluster_ID r) stackName ;;
  match existing with
  | Err err => HandleAPIError (ErrInternal err) ;; exit
  | Ok existing =>
      if decide (app_Name existing = "") then ret tt
      else
        HandleAPIError
          (ErrPassThroughToClient
             ("app with name " +:+ app_Name existing +:+ " already exists in your project")
             StatusForbidden) ;;
        exit
  end ;;
  let app := newPorterApp r stackName request in
  (* create the db entry *)
  res <- UpdatePorterApp app ;;
  match res with
  | Err err => HandleAPIError (ErrInternal ("error writing app to DB: " +:+ err)) ;; exit
  | Ok porterApp =>
      createPorterAppEvent "SUCCESS" (app_ID porterApp) 1 ;;
      WriteResult porterApp
  end.

(** *** [ServeHTTP], lines 234-368: the arm taken otherwise *)
Definition ServeHTTP_update (r : HttpRequest) (stackName namespace : string)
    (request : CreatePorterAppRequest) (registries : list string)
    (chart : Chart) (values releaseJobValues : gomap)
    (helmRelease : option Release) : M unit :=
  (* create/update the release job chart *)
  (if req_OverrideRelease request then
     let releaseJobName := releaseJobNameOf stackName in
     probe <- GetRelease releaseJobName ;;
     match probe with
     | Err _ =>
         conf <- createReleaseJobChart stackName releaseJobValues
                   (DefaultApplicationHelmRepoURL (w_Config w)) registries (http_cluster_ID r) ;;
         match conf with
         | Err err =>
             HandleAPIError
               (ErrInternal ("error making config for release job chart: " +:+ err)) ;;
             exit
         | Ok conf =>
             res <- InstallChart conf ;;
             match res with
             | Err err =>
                 HandleAPIError (ErrInternal ("error creating release job chart: " +:+ err)) ;;
                 err <- UninstallChart (releaseJobNameOf stackName) ;;
                 match err with
                 | Some err =>
                     HandleAPIError
                       (ErrInternal ("error uninstalling release job chart: " +:+ err))
                 | None => ret tt
                 end ;;
                 exit
             | Ok _ => ret tt
             end
         end
     | Ok jobRelease =>
         (* release job exists, so we need to update it or delete it *)
         if isNil releaseJobValues then
           err <- UninstallChart releaseJobName ;;
           match err with
           | Some err =>
               HandleAPIError (ErrInternal ("error uninstalling release job chart: " +:+ err))
           | None => ret tt
           end ;;
           exit
         else
           loaded <- LoadChartPublic (Metadata_DefaultAppHelmRepoURL (w_Config w)) ;;
           match loaded with
           | Err err =>
               HandleAPIError
                 (ErrPassThroughToClient ("error loading release job chart: " +:+ err)
                    StatusBadRequest) ;;
               exit
           | Ok jobChart =>
               let conf :=
                 mkUpgradeReleaseConfig (rel_Name jobRelease) (http_cluster_ID r) registries
                   releaseJobValues jobChart in
               res <- UpgradeReleaseByValues conf ;;
               match res with
               | Err err =>
                   HandleAPIError
                     (ErrInternal ("error upgrading release job chart: " +:+ err)) ;;
                   exit
               | Ok _ => ret tt
               end
           end
     end
   else ret tt) ;;
  (* update the app chart *)
  let conf :=
    mkInstallChartConfig chart stackName namespace values (http_cluster_ID r) registries in
  res <- UpgradeInstallChart conf ;;
  match res with
  | Err err =>
      HandleAPIError
        (ErrPassThroughToClient ("error deploying app: " +:+ err) StatusBadRequest) ;;
      exit
  | Ok _ => ret tt
  end ;;
  (* update the DB entry *)
  app <- ReadPorterAppByName (http_cluster_ID r) stackName ;;
  match app with
  | Err err => HandleAPIError (ErrInternal err) ;; exit
  | Ok app =>
      let app := patchPorterApp request app in
      res <- UpdatePorterApp app ;;
      match res with
      | Err err =>
          HandleAPIError (ErrInternal ("error writing updated app to DB: " +:+ err)) ;; exit
      | Ok updatedPorterApp =>
          helmRelease <- deref helmRelease ;;
          createPorterAppEvent "SUCCESS" (app_ID updatedPorterApp)
            (int_add (rel_Version helmRelease) 1) ;;
          WriteResult updatedPorterApp
      end
  end.

(** *** [ServeHTTP], lines 43-139, then one of the two arms *)
Definition ServeHTTP (r : HttpRequest) : M unit :=
  request <- match http_body r with
             | Some request => ret request
             | None => HandleAPIError (ErrInternal "error decoding request") ;; exit
             end ;;
  stackName <- match http_stackName r with
               | Ok stackName => ret stackName
               | Err reqErr =>
                   HandleAPIError (ErrPassThroughToClient reqErr StatusBadRequest) ;; exit
               end ;;
  let namespace := namespaceOf stackName in
  err <- GetHelmAgent namespace ;;
  match err with
  | Some err => HandleAPIError (ErrInternal ("error getting helm agent: " +:+ err)) ;; exit
  | None => ret tt
  end ;;
  err <- GetAgent namespace ;;
  match err with
  | Some err => HandleAPIError (ErrInternal ("error getting k8s agent: " +:+ err)) ;; exit
  | None => ret tt
  end ;;
  probe <- GetRelease stackName ;;
  let helmRelease := match probe with Ok rel => Some rel | Err _ => None end in
  let shouldCreate := match probe with Ok _ => false | Err _ => true end in
  porterYaml <- match w_DecodeString w (req_PorterYAMLBase64 request) with
                | Ok porterYaml => ret porterYaml
                | Err err =>
                    HandleAPIError (ErrInternal ("error decoding porter.yaml: " +:+ err)) ;;
                    exit
                end ;;
  let imageInfo := req_ImageInfo request in
  listed <- ListRegistriesByProjectID (http_cluster_ProjectID r) ;;
  registries <- match listed with
                | Ok registries => ret registries
                | Err err =>
                    HandleAPIError (ErrInternal ("error listing registries: " +:+ err)) ;;
                    exit
                end ;;
  prior <- (if shouldCreate || req_OverrideRelease request then
              ret (None, [], imageInfoUnlessGiven helmRelease imageInfo)
            else
              rel <- deref helmRelease ;;
              ret (rel_Config rel, chart_Dependencies (rel_Chart rel), imageInfo)) ;;
  let '(releaseValues, releaseDependencies, imageInfo) := prior in
  request <- (if decide (req_Builder request = "") then
                (* attempt to get builder from db *)
                app <- ReadPorterAppByName (http_cluster_ID r) stackName ;;
                ret (builderFromDB request app)
              else ret request) ;;
  let injectLauncher :=
    Contains (req_Builder request) "heroku" || Contains (req_Builder request) "paketo" in
  parsed <- parse (mkParseArgs porterYaml imageInfo (http_cluster_ProjectID r)
                     releaseValues releaseDependencies stackName injectLauncher) ;;
  match parsed with
  | Err err =>
      HandleAPIError
        (ErrInternal ("error parsing porter.yaml into chart and values: " +:+ err)) ;;
      exit
  | Ok parsed =>
      if shouldCreate then
        ServeHTTP_create r stackName namespace request registries
          (p_chart parsed) (p_values parsed) (p_releaseJobValues parsed)
      else
        ServeHTTP_update r stackName namespace request registries
          (p_chart parsed) (p_values parsed) (p_releaseJobValues parsed) helmRelease
  end.

(** The trace of one reconciliation, from an empty history. *)
Definition run (r : HttpRequest) : Trace := snd (ServeHTTP r []).

End Handler.

Arguments run w r : assert.

(** ** The fields the update arm patches *)

Inductive Field : Type :=
| FRepoName | FGitBranch | FBuildContext | FBuilder | FBuildpacks | FDockerfile
| FImageRepoURI | FPullRequestURL.

Definition incoming (f : Field) (request : CreatePorterAppRequest) : string :=
  match f with
  | FRepoName => req_RepoName request
  | FGitBranch => req_GitBranch request
  | FBuildContext => req_BuildContext request
  | FBuilder => req_Builder request
  | FBuildpacks => req_Buildpacks request
  | FDockerfile => req_Dockerfile request
  | FImageRepoURI => req_ImageRepoURI request
  | FPullRequestURL => req_PullRequestURL request
  end.

Definition stored (f : Field) (app : PorterApp) : string :=
  match f with
  | FRepoName => app_RepoName app
  | FGitBranch => app_GitBranch app
  | FBuildContext => app_BuildContext app
  | FBuilder => app_Builder app
  | FBuildpacks => app_Buildpacks app
  | FDockerfile => app_Dockerfile app
  | FImageRepoURI => app_ImageRepoURI app
  | FPullRequestURL => app_PullRequestURL app
  end.

(** The literal that lines 332, 339 and 346 compare with. *)
Definition sentinel : string := "null".

(** The fields for which the handler looks for the sentinel. *)
Definition clearable (f : Field) : bool :=
  match f with
  | FBuilder | FBuildpacks | FDockerfile => true
  | _ => false
  end.

(** The field rule in the words of the specification (sections 4.6 and 8):
    empty leaves the field, the sentinel empties it, any other value
    overwrites it. *)
Definition spec_field_rule (f : Field) (request : CreatePorterAppRequest)
    (before after : PorterApp) : Prop :=
  (incoming f request = "" -> stored f after = stored f before) /\
  (incoming f request <> "" -> incoming f request <> sentinel ->
   stored f after = incoming f request) /\
  (incoming f request = sentinel -> stored f after = "").

(** The field rule of lines 322-357: the sentinel empties a clearable field
    and is stored like any other value in the others. *)
Definition field_rule (f : Field) (request : CreatePorterAppRequest)
    (before after : PorterApp) : Prop :=
  (incoming f request = "" -> stored f after = stored f before) /\
  (incoming f request <> "" ->
   clearable f = false \/ incoming f request <> sentinel ->
   stored f after = incoming f request) /\
  (clearable f = true -> incoming f request = sentinel -> stored f after = "").

(** The fields of the row that no rule names. *)
Definition untouched (before after : PorterApp) : Prop :=
  app_ID after = app_ID before /\
  app_Name after = app_Name before /\
  app_ClusterID after = app_ClusterID before /\
  app_ProjectID after = app_ProjectID before /\
  app_GitRepoID after = app_GitRepoID before /\
  app_PorterYamlPath after = app_PorterYamlPath before.

(** ** Reading a trace *)

(** The answer to the first read of the application row. *)
Fixpoint first_read (t : Trace) : option (result PorterApp) :=
  match t with
  | [] => None
  | EReadPorterAppByName _ _ res :: _ => Some res
  | _ :: t' => first_read t'
  end.

(** The request as the arms see it: lines 109-115 have replaced an empty
    [Builder] by the one of the row read first, when that read succeeded. *)
Definition effective_request (request : CreatePorterAppRequest) (t : Trace)
    : CreatePorterAppRequest :=
  if decide (req_Builder request = "") then
    match first_read t with
    | Some app => builderFromDB request app
    | None => request
    end
  else request.


(** Calls that change the cluster. *)
Definition is_cluster_mutation (e : Event) : bool :=
  match e with
  | ECreateNamespace _ _ | EInstallChart _ _ | EUninstallChart _ _
  | EUpgradeReleaseByValues _ _ | EUpgradeInstallChart _ _ => true
  | _ => false
  end.

(** Writes to the relational store: the application row and the event. *)
Definition is_db_write (e : Event) : bool :=
  match e with
  | EUpdatePorterApp _ _ | ECreateEvent _ _ => true
  | _ => false
  end.

Definition is_HandleAPIError (e : Event) : bool :=
  match e with
  | EHandleAPIError _ => true
  | _ => false
  end.

Definition is_WriteResult (e : Event) : bool :=
  match e with
  | EWriteResult _ => true
  | _ => false
  end.

Definition is_UpgradeInstallChart (e : Event) : bool :=
  match e with
  | EUpgradeInstallChart _ _ => true
  | _ => false
  end.

Definition never (p : Event -> bool) (t : Trace) : bool := forallb (fun e => negb (p e)) t.

(** The create arm starts with [CreateNamespace] and is the only place that
    calls it. *)
Definition took_create (t : Trace) : bool :=
  existsb (fun e => match e with ECreateNamespace _ _ => true | _ => false end) t.

(** The update arm starts with the probe of the release job (override) or with
    [UpgradeInstallChart]; neither call is made anywhere else. *)
Definition took_update (stackName : string) (t : Trace) : bool :=
  existsb (fun e =>
             match e with
             | EGetRelease name _ => bool_decide (name = releaseJobNameOf stackName)
             | EUpgradeInstallChart _ _ => true
             | _ => false
             end) t.

(** The answer of the probe of the main release. *)
Definition probe_failed (stackName : string) (t : Trace) : bool :=
  existsb (fun e =>
             match e with
             | EGetRelease name (Err _) => bool_decide (name = stackName)
             | _ => false
             end) t.

Definition probe_succeeded (stackName : string) (t : Trace) : bool :=
  existsb (fun e =>
             match e with
             | EGetRelease name (Ok _) => bool_decide (name = stackName)
             | _ => false
             end) t.

Definition parse_succeeded (t : Trace) : bool :=
  existsb (fun e => match e with EParse _ (Ok _) => true | _ => false end) t.

(** The events of [l] occur in [t] one right after the other. *)
Definition consecutive (l t : Trace) : Prop :=
  exists pre post, t = pre ++ l ++ post.

(** What a call does to the release job of a stack, if anything. *)
Inductive JobAction : Type :=
| JobInstall (values : gomap)
| JobUninstall
| JobUpgrade (values : gomap).

Definition job_action (stackName : string) (e : Event) : option JobAction :=
  match e with
  | EInstallChart conf _ =>
      if bool_decide (icc_Name conf = releaseJobNameOf stackName)
      then Some (JobInstall (icc_Values conf)) else None
  | EUpgradeInstallChart conf _ =>
      if bool_decide (icc_Name conf = releaseJobNameOf stackName)
      then Some (JobInstall (icc_Values conf)) else None
  | EUninstallChart name _ =>
      if bool_decide (name = releaseJobNameOf stackName) then Some JobUninstall else None
  | EUpgradeReleaseByValues conf _ => Some (JobUpgrade (urc_Values conf))
  | _ => None
  end.

(** The actions attempted on the release job, in order. *)
Definition job_actions (stackName : string) (t : Trace) : list JobAction :=
  omap (job_action stackName) t.

(** The table of section 4.4 of the specification, in its words: what is to
    be done to the release job given whether it exists and the values
    requested for it.  It is compared with [job_actions] below. *)
Definition spec_job_table (jobReleaseExists : bool) (requested : gomap) : list JobAction :=
  match jobReleaseExists, requested with
  | false, None => []
  | false, Some _ => [JobInstall requested]
  | true, None => [JobUninstall]
  | true, Some _ => [JobUpgrade requested]
  end.

(** The rows of that table the handler is checked against on the update arm:
    an existing release job without values is uninstalled; with values, once
    the job chart has loaded, an existing one is upgraded and a missing one is
    installed.  The row of a missing release job without values is left out
    here. *)
Definition job_row_followed (stackName : string) (probe : result Release)
    (requested : gomap) (t : Trace) : Prop :=
  match probe, requested with
  | Ok _, None => job_actions stackName t = spec_job_table true None
  | Ok _, Some v =>
      forall url chart,
        In (ELoadChartPublic url (Ok chart)) t ->
        job_actions stackName t = spec_job_table true (Some v)
  | Err _, Some v =>
      forall url chart,
        In (ELoadChartPublic url (Ok chart)) t ->
        exists rest, job_actions stackName t = spec_job_table false (Some v) ++ rest
  | Err _, None => True
  end.

(** The call an event records, and whether it was answered with an error. *)
Definition failed {T : Type} (r : result T) : bool :=
  match r with
  | Ok _ => false
  | Err _ => true
  end.

Definition raised (r : option error) : bool :=
  match r with
  | Some _ => true
  | None => false
  end.

Definition kind (e : Event) : nat * bool :=
  match e with
  | EGetHelmAgent _ r => (0%nat, raised r)
  | EGetAgent _ r => (1%nat, raised r)
  | EGetRelease _ r => (2%nat, failed r)
  | EListRegistriesByProjectID _ r => (3%nat, failed r)
  | EReadPorterAppByName _ _ r => (4%nat, failed r)
  | EParse _ r => (5%nat, failed r)
  | ECreateNamespace _ r => (6%nat, raised r)
  | ELoadChartPublic _ r => (7%nat, failed r)
  | EInstallChart _ r => (8%nat, failed r)
  | EUninstallChart _ r => (9%nat, raised r)
  | EUpgradeReleaseByValues _ r => (10%nat, failed r)
  | EUpgradeInstallChart _ r => (11%nat, failed r)
  | EUpdatePorterApp _ r => (12%nat, failed r)
  | ECreateEvent _ r => (13%nat, raised r)
  | EHandleAPIError _ => (14%nat, true)
  | EWriteResult _ => (15%nat, false)
  | EPanic _ => (16%nat, true)
  end.

Definition same_kind (a b : Event) : bool :=
  Nat.eqb (fst (kind a)) (fst (kind b)) && Bool.eqb (snd (kind a)) (snd (kind b)).

(** Modelled from the spec: the release store of the orchestration platform,
    which is not part of the handler.  Section 6 gives [installChart] and
    [upgradeInstallChart] as yielding a release or an error and
    [uninstallChart] as yielding ok or an error.  The set below holds the
    releases that are certainly installed: a release enters it when an install
    or upgrade-install of its name succeeds and leaves it as soon as an
    uninstall of its name is attempted, whatever the outcome. *)
Definition cluster_step (c : gset string) (e : Event) : gset string :=
  match e with
  | EInstallChart conf (Ok _) => {[ icc_Name conf ]} ∪ c
  | EUpgradeInstallChart conf (Ok _) => {[ icc_Name conf ]} ∪ c
  | EUninstallChart name _ => c ∖ {[ name ]}
  | _ => c
  end.

Definition installed_after (t : Trace) (c : gset string) : gset string :=
  foldl cluster_step c t.

(** ** Further readings of a trace *)

Definition is_Panic (e : Event) : bool :=
  match e with
  | EPanic _ => true
  | _ => false
  end.

(** An answer to the caller: an error or the result. *)
Definition is_response (e : Event) : bool := is_HandleAPIError e || is_WriteResult e.

Definition count (p : Event -> bool) (t : Trace) : nat := length (List.filter p t).

(** A call that installs or upgrades the main release of the stack. *)
Definition is_main_deploy (stackName : string) (e : Event) : bool :=
  match e with
  | EInstallChart conf _ | EUpgradeInstallChart conf _ =>
      bool_decide (icc_Name conf = stackName)
  | _ => false
  end.

(** Such a call that succeeded. *)
Definition is_main_deployed (stackName : string) (e : Event) : bool :=
  match e with
  | EInstallChart conf (Ok _) | EUpgradeInstallChart conf (Ok _) =>
      bool_decide (icc_Name conf = stackName)
  | _ => false
  end.

(** Any call on a release: install, uninstall or upgrade. *)
Definition is_release_call (e : Event) : bool :=
  match e with
  | EInstallChart _ _ | EUninstallChart _ _
  | EUpgradeReleaseByValues _ _ | EUpgradeInstallChart _ _ => true
  | _ => false
  end.

(** The probe of the release job. *)
Definition is_job_probe (stackName : string) (e : Event) : bool :=
  match e with
  | EGetRelease name _ => bool_decide (name = releaseJobNameOf stackName)
  | _ => false
  end.


(** The image that reaches [parse]: the one of the request, unless the
    request overrides an existing release and names no full image. *)
Definition image_for_parse (w : World) (request : CreatePorterAppRequest)
    (probe : result Release) : ImageInfo :=
  match probe with
  | Ok rel =>
      if req_OverrideRelease request
         && (bool_decide (Repository (req_ImageInfo request) = "")
             || bool_decide (Tag (req_ImageInfo request) = ""))
      then w_attemptToGetImageInfoFromRelease w (rel_Config rel)
      else req_ImageInfo request
  | Err _ => req_ImageInfo request
  end.

End PorterApp.

(** * The server start-up

    [main] of the server binary ([src/unnamed/part_001]): open the database,
    migrate, copy the encryption key, optionally start the Redis stream,
    then listen. *)

Module Server.
Import Stack.

(** [config.FromEnv], reduced to the settings [main] reads. *)
Record AppConf : Type := mkAppConf {
  Debug : bool;
  Db_EncryptionKey : string;
  Redis_Enabled : bool;
  Server_Port : Z
}.

(** The outcome of each collaborator [main] calls; each is called at most
    once, so an answer per call covers every behaviour. *)
Record Env : Type := mkEnv {
  appConf : AppConf;
  adapter_New : option error;
  AutoMigrate : option error;
  NewRedisClient : option error;
  api_New : option error;
  ListenAndServe : option error
}.

Inductive Step : Type :=
| SAdapterNew (r : option error)
| SAutoMigrate (r : option error)
| SNewRepository (key : list ascii)
| SNewRedisClient (r : option error)
| SInitGlobalStream
| SGoGlobalStreamListener
| SApiNew (r : option error)
| SRouterNew
| SInfo (msg : string)
| SListenAndServe (addr : string) (r : option error)
| SFatal (msg : string)
| SPanic (msg : string).

(** [key[i] = b] on an array: a run-time panic when [i] is out of range. *)
Definition store (key : list ascii) (i : nat) (b : ascii) : outcome (list ascii) :=
  if decide (i < length key)%nat then Returned (<[i := b]> key)
  else Panicked "index out of range".

(** Lines 64-66: [for i, b := range bytes { key[i] = b }], from index [i]. *)
Fixpoint fillKey (key : list ascii) (i : nat) (bytes : list ascii) : outcome (list ascii) :=
  match bytes with
  | [] => Returned key
  | b :: rest =>
      match store key i b with
      | Returned key => fillKey key (S i) rest
      | Panicked msg => Panicked msg
      end
  end.

(** Lines 62-66: [var key [32]byte], then the loop over the configured key. *)
Definition encryptionKey (s : string) : outcome (list ascii) :=
  fillKey (replicate 32 Ascii.zero) 0 (list_ascii_of_string s).

(** [http.ErrServerClosed] *)
Definition ErrServerClosed : error := "http: Server closed".

(** [fmt.Sprintf(":%d", port)] *)
Definition addressOf (port : Z) : string := ":" +:+ NilZero.string_of_int (Z.to_int port).

(** Lines 85-109. *)
Definition serve (env : Env) : list Step :=
  let address := addressOf (Server_Port (appConf env)) in
  [SApiNew (api_New env); SRouterNew; SInfo ("Starting server " +:+ address);
   SListenAndServe address (ListenAndServe env)]
  ++ match ListenAndServe env with
     | Some err =>
         if decide (err = ErrServerClosed) then []
         else [SFatal ("Server startup failed" +:+ err)]
     | None => []
     end.

(** [main], lines 22-110.  [logger.Fatal] ends the process. *)
Definition main (env : Env) : list Step :=
  SAdapterNew (adapter_New env) ::
  match adapter_New env with
  | Some err => [SFatal err]
  | None =>
      SAutoMigrate (AutoMigrate env) ::
      match AutoMigrate env with
      | Some err => [SFatal err]
      | None =>
          match encryptionKey (Db_EncryptionKey (appConf env)) with
          | Panicked msg => [SPanic msg]
          | Returned key =>
              SNewRepository key ::
              if Redis_Enabled (appConf env) then
                SNewRedisClient (NewRedisClient env) ::
                match NewRedisClient env with
                | Some err => [SFatal err]
                | None => SInitGlobalStream :: SGoGlobalStreamListener :: serve env
                end
              else serve env
          end
      end
  end.

Definition is_ListenAndServe (s : Step) : bool :=
  match s with
  | SListenAndServe _ _ => true
  | _ => false
  end.

Definition is_Fatal (s : Step) : bool :=
  match s with
  | SFatal _ => true
  | _ => false
  end.

Definition is_redis (s : Step) : bool :=
  match s with
  | SNewRedisClient _ | SInitGlobalStream | SGoGlobalStreamListener => true
  | _ => false
  end.

End Server.

(** * The activity feed of the dashboard

    The component [ActivityFeed] ([src/unnamed/part_002]): its state, the
    setter calls of [getEvents], and what it renders. *)

Module ActivityFeed.

Section Feed.

(** An event of the feed, as the API returns it. *)
Context {A : Type}.

(** The state held by the [useState] hooks.  [events] is [None] when the
    value set is [undefined]; [error] is [None] when the value is falsy. *)
Record State : Type := mkState {
  events : option (list A);
  loading : bool;
  error : option string;
  page : Z;
  numPages : Z
}.

(** Lines 28-32. *)
Definition initial : State := mkState (Some []) true None 1 0.

(** [res.data] of [api.getFeedEvents]. *)
Record Response : Type := mkResponse {
  num_pages : Z;
  res_events : option (list A)
}.

(** A call of one of the [useState] setters. *)
Inductive Update : Type :=
| SetEvents (l : option (list A))
| SetLoading (b : bool)
| SetError (e : option string)
| SetPage (p : Z)
| SetNumPages (n : Z).

Definition apply (s : State) (u : Update) : State :=
  match u with
  | SetEvents l => mkState l (loading s) (error s) (page s) (numPages s)
  | SetLoading b => mkState (events s) b (error s) (page s) (numPages s)
  | SetError e => mkState (events s) (loading s) e (page s) (numPages s)
  | SetPage p => mkState (events s) (loading s) (error s) p (numPages s)
  | SetNumPages n => mkState (events s) (loading s) (error s) (page s) n
  end.

(** How [api.getFeedEvents] settles: with a response, or with the reason
    ([None] when it is falsy) that [catch] receives. *)
Inductive Settled : Type :=
| Resolved (res : Response)
| Rejected (err : option string).

(** [getEvents], lines 34-54: the setters it calls, in order. *)
Definition getEvents (outcome : Settled) : list Update :=
  SetLoading true ::
  match outcome with
  | Resolved res =>
      [SetNumPages (num_pages res); SetEvents (res_events res); SetLoading false]
  | Rejected err => [SetError err; SetLoading false]
  end.

(** One entry of the feed (lines 93-105). *)
Record Item : Type := mkItem {
  item_event : A;
  item_key : nat;
  isLast : bool;
  showLine : bool
}.

Inductive View : Type :=
| ErrorView
| LoadingView
| EmptyView
| FeedView (items : list Item) (pagination : bool)
| TypeError.

(** Lines 93-105: the callback of [events.map]. *)
Definition entry (n : Z) (i : nat) (event : A) : Item :=
  mkItem event i
    (Z.of_nat i =? n - 1)%Z
    (negb (Z.of_nat i =? n - 1)%Z && (1 <? n)%Z).

(** Lines 60-112: what the component returns.  [events?.length === 0] is
    false on [undefined], and [events.map] then throws. *)
Definition render (s : State) : View :=
  if bool_decide (is_Some (error s)) then ErrorView
  else if loading s then LoadingView
  else
    match events s with
    | Some [] => EmptyView
    | Some l => FeedView (imap (entry (Z.of_nat (length l))) l) (1 <? numPages s)%Z
    | None => TypeError
    end.

(** The setter calls the component makes when every rejection carries a
    truthy reason: [setError] is never called with a falsy value. *)
Definition keeps_error (u : Update) : Prop := u <> SetError None.

End Feed.

Arguments State A : clear implicits.
Arguments Update A : clear implicits.
Arguments Settled A : clear implicits.
Arguments Item A : clear implicits.
Arguments View A : clear implicits.
Arguments Response A : clear implicits.

End ActivityFeed.

(** * The datastore list of the dashboard

    The hook [useDatastoreList]
    ([src/dashboard/src/lib/hooks/useDatabaseList.ts]): its query function
    and the flag that enables it. *)

Module Datastores.

(** A datastore of the validated response and a template of
    [SUPPORTED_DATASTORE_TEMPLATES], with the fields the hook reads. *)
Record Datastore : Type := mkDatastore {
  d_name : string;
  d_type : string;
  d_engine : string
}.

Record Template : Type := mkTemplate {
  t_type : string;
  t_engine_name : string;
  t_displayName : string
}.

(** Line 43: [t.type === d.type && t.engine.name === d.engine] *)
Definition matches (d : Datastore) (t : Template) : bool :=
  String.eqb (t_type t) (d_type d) && String.eqb (t_engine_name t) (d_engine d).

Section Hook.

(** [SUPPORTED_DATASTORE_TEMPLATES] and [valueExists] are imported from
    files that are not at hand. *)
Context (templates : list Template).
Context (valueExists : option (Datastore * Template) -> bool).

(** Lines 41-49: attach to each datastore the first template that matches,
    [null] when there is none, then filter with [valueExists]. *)
Definition withTemplates (datastores : list Datastore)
    : list (option (Datastore * Template)) :=
  List.filter valueExists
    (map (fun d =>
            match List.find (matches d) templates with
            | Some template => Some (d, template)
            | None => None
            end) datastores).

(** Line 25: [!currentProject?.id || currentProject.id === -1], where
    [None] is a missing project or a missing id. *)
Definition noProject (currentProject : option Z) : bool :=
  match currentProject with
  | None => true
  | Some id => (id =? 0)%Z || (id =? -1)%Z
  end.

(** Line 52: [!!currentProject?.id && currentProject.id !== -1] *)
Definition enabled (currentProject : option Z) : bool :=
  match currentProject with
  | None => false
  | Some id => negb (id =? 0)%Z && negb (id =? -1)%Z
  end.

(** Lines 24-50, the query function: [Ok None] is [undefined]; a rejected
    call or a rejected validation rejects the query. *)
Definition queryFn {Raw : Type} (listDatastores : Z -> result Raw)
    (parseAsync : Raw -> result (list Datastore)) (currentProject : option Z)
    : result (option (list (option (Datastore * Template)))) :=
  if noProject currentProject then Ok None
  else
    match currentProject with
    | None => Ok None
    | Some id =>
        match listDatastores id with
        | Err e => Err e
        | Ok response =>
            match parseAsync response with
            | Err e => Err e
            | Ok parsed => Ok (Some (withTemplates parsed))
            end
        end
    end.

End Hook.

End Datastores.

(** * Concrete worlds *)

Module Scenario.
Import PorterApp.

Definition someChart : Chart := mkChart "web" [].
Definition jobChart : Chart := mkChart "job" [].
Definition jobValues : gomap := Some {[ "run" := IString "migrate" ]}.
Definition mainValues : gomap := Some {[ "replicas" := IInt 1 ]}.
Definition releaseOf (name : string) (version : Z) : Release :=
  mkRelease name None someChart version.
Definition noApp : PorterApp := mkPorterApp 0 "" 0 0 "" 0 "" "" "" "" "" "" "" "".
Definition storedApp : PorterApp :=
  mkPorterApp 7 "api" 1 2 "org/api" 0 "main" "." "heroku/buildpacks:20" "" "" "" "" "porter.yaml".

(** A world that ignores the history: the answers are fixed per call. *)
Definition world (getRelease : string -> result Release) (parsed : result Parsed)
    (install : InstallChartConfig -> result Release) (uninstall : string -> option error)
    (read : result PorterApp) (createEvent : option error) : World :=
  mkWorld (mkConfig "https://charts.example" "https://charts.example" "example.dev")
    (fun s => Ok s)
    (fun _ => mkImageInfo "registry.example/api" "latest")
    (fun _ _ => None) (fun _ _ => None)
    (fun _ name => getRelease name)
    (fun _ _ => Ok ["registry.example"])
    (fun _ _ _ => read)
    (fun _ _ => parsed)
    (fun _ _ => None)
    (fun _ _ => Ok jobChart)
    (fun _ conf => install conf)
    (fun _ name => uninstall name)
    (fun _ conf => Ok (releaseOf (urc_Name conf) 2))
    (fun _ conf => Ok (releaseOf (icc_Name conf) 5))
    (fun _ app => Ok app)
    (fun _ => 42)
    (fun _ ev => (createEvent, ev_ID ev)).

Definition request (override : bool) : CreatePorterAppRequest :=
  mkRequest "" 0 "" "" "heroku/buildpacks:20" "" "" "" "" "porter.yaml" "eWFtbA=="
    (mkImageInfo "registry.example/api" "v1") override.

Definition http (override : bool) : HttpRequest :=
  mkHttpRequest 2 1 2 (Some (request override)) (Ok "api").

(** A request that carries the sentinel in [RepoName] and in [Dockerfile]. *)
Definition sentinelRequest : CreatePorterAppRequest :=
  mkRequest "null" 0 "" "" "heroku/buildpacks:20" "" "null" "" "" "porter.yaml" "eWFtbA=="
    (mkImageInfo "registry.example/api" "v1") false.

Definition sentinelHttp : HttpRequest :=
  mkHttpRequest 2 1 2 (Some sentinelRequest) (Ok "api").

Definition absent (name : string) : result Release := Err "release: not found".
Definition onlyMain (name : string) : result Release :=
  if decide (name = "api") then Ok (releaseOf name 4) else Err "release: not found".
Definition mainAndJob (name : string) : result Release := Ok (releaseOf name 4).

Definition installOk (conf : InstallChartConfig) : result Release :=
  Ok (releaseOf (icc_Name conf) 1).
Definition installMainFails (conf : InstallChartConfig) : result Release :=
  if decide (icc_Name conf = "api") then Err "timed out" else Ok (releaseOf (icc_Name conf) 1).
Definition uninstallOk (name : string) : option error := None.
Definition uninstallFails (name : string) : option error := Some "cluster unreachable".

(** A world in which the namespace creation and the row write can fail. *)
Definition world2 (createNamespace : option error)
    (update : PorterApp -> result PorterApp)
    (getRelease : string -> result Release) (parsed : result Parsed)
    (install : InstallChartConfig -> result Release) : World :=
  mkWorld (mkConfig "https://charts.example" "https://charts.example" "example.dev")
    (fun s => Ok s)
    (fun _ => mkImageInfo "registry.example/api" "latest")
    (fun _ _ => None) (fun _ _ => None)
    (fun _ name => getRelease name)
    (fun _ _ => Ok ["registry.example"])
    (fun _ _ _ => Ok noApp)
    (fun _ _ => parsed)
    (fun _ _ => createNamespace)
    (fun _ _ => Ok jobChart)
    (fun _ conf => install conf)
    (fun _ _ => None)
    (fun _ conf => Ok (releaseOf (urc_Name conf) 2))
    (fun _ conf => Ok (releaseOf (icc_Name conf) 5))
    (fun _ app => update app)
    (fun _ => 42)
    (fun _ ev => (None, ev_ID ev)).

Definition installJobFails (conf : InstallChartConfig) : result Release :=
  if decide (icc_Name conf = "api-r") then Err "timed out"
  else Ok (releaseOf (icc_Name conf) 1).

Definition parsedPlain : Parsed := mkParsed someChart mainValues None.
Definition parsedWithJob : Parsed := mkParsed someChart mainValues jobValues.
Definition firstDeploy : World := world absent (Ok parsedPlain) installOk uninstallOk (Ok noApp) None.
Definition redeployed : World :=
  world onlyMain (Ok parsedPlain) installOk uninstallOk (Ok storedApp) None.
Definition parseArgs : ParseArgs :=
  mkParseArgs "eWFtbA==" (mkImageInfo "registry.example/api" "v1") 2 None [] "api" true.
Definition mainConf : InstallChartConfig :=
  mkInstallChartConfig someChart "api" "porter-stack-api" mainValues 1 ["registry.example"].
Definition jobConf : InstallChartConfig :=
  mkInstallChartConfig jobChart "api-r" "porter-stack-api" jobValues 1 ["registry.example"].

(** Inputs of the server start-up. *)
Definition longKeyEnv : Server.Env :=
  Server.mkEnv (Server.mkAppConf false "0123456789abcdef0123456789abcdef!" false 8080)
    None None None None None.

Definition portTakenEnv : Server.Env :=
  Server.mkEnv (Server.mkAppConf false "s3cret" true 8080)
    None None None (Some "api: misconfigured")
    (Some "listen tcp :8080: bind: address already in use").

(** Inputs of the datastore list. *)
Definition someTemplates : list Datastores.Template :=
  [Datastores.mkTemplate "RDS" "POSTGRES" "RDS Postgres";
   Datastores.mkTemplate "ELASTICACHE" "REDIS" "Elasticache Redis"].

Definition someDatastores : list Datastores.Datastore :=
  [Datastores.mkDatastore "orders" "RDS" "POSTGRES";
   Datastores.mkDatastore "legacy" "RDS" "MYSQL";
   Datastores.mkDatastore "cache" "ELASTICACHE" "REDIS"].

Definition notNull (o : option (Datastores.Datastore * Datastores.Template)) : bool :=
  match o with
  | Some _ => true
  | None => false
  end.

End Scenario.

(** * Properties of the stack hook *)

Module StackSpec.
Import Stack.

Lemma Split_not_nil (s : string) (sep : ascii) : Split s sep <> [].
Proof.
  destruct s as [|a rest]; simpl; [discriminate|].
  destruct (Ascii.eqb a sep); [discriminate|].
  destruct (Split rest sep); discriminate.
Qed.

(** Without the separator there is nothing to split. *)
Lemma Split_absent (s : string) (sep : ascii) :
  occurs sep s = false -> Split s sep = [s].
Proof.
  induction s as [|a rest IH]; simpl; [reflexivity|].
  destruct (Ascii.eqb a sep); simpl; [discriminate|].
  intros H. by rewrite (IH H).
Qed.

(** The first piece ends at the first separator. *)
Lemma Split_first (repo rest : string) (sep : ascii) :
  occurs sep repo = false ->
  Split (repo +:+ String sep rest) sep = repo :: Split rest sep.
Proof.
  induction repo as [|a repo IH]; simpl.
  - intros _. by rewrite Ascii.eqb_refl.
  - destruct (Ascii.eqb a sep); simpl; [discriminate|].
    intros H. by rewrite (IH H).
Qed.

(** An absent, non-string or empty image gives the zero value. *)
Lemma image_absent_is_zero (driverOutput : gmap string iface) :
  (forall image, driverOutput !! "image" = Some (IString image) -> image = "") ->
  applyStack_imageInfo driverOutput = Returned zeroImageInfo.
Proof.
  unfold applyStack_imageInfo. intros H.
  destruct (driverOutput !! "image") as [[| | |image]|]; try reflexivity.
  by rewrite (H image eq_refl).
Qed.

(** With a colon, the repository is what precedes the first colon and the tag
    is what lies between the first colon and the next one, if any. *)
Lemma image_with_colon_resolves (driverOutput : gmap string iface) (repo rest : string) :
  driverOutput !! "image" = Some (IString (repo +:+ String colon rest)) ->
  occurs colon repo = false ->
  exists tag more,
    Split rest colon = tag :: more /\
    applyStack_imageInfo driverOutput = Returned (mkImageInfo repo tag).
Proof.
  intros Hget Hrepo. unfold applyStack_imageInfo. rewrite Hget.
  destruct (Split rest colon) as [|tag more] eqn:Hrest.
  - by destruct (Split_not_nil rest colon).
  - exists tag, more. split; [reflexivity|].
    case_decide as Hempty.
    + destruct repo; discriminate Hempty.
    + cbv zeta. rewrite (Split_first repo rest colon Hrepo), Hrest. reflexivity.
Qed.

Example image_with_port_is_cut :
  applyStack_imageInfo {[ "image" := IString "host:5000/name:tag" ]}
  = Returned (mkImageInfo "host" "5000/name").
Proof. reflexivity. Qed.

(** C9, as the hook runs it: a non-empty image string without a colon makes
    the image resolution panic on [imageSpl[1]]; it yields neither a pair nor
    the zero value. *)
Theorem image_without_colon_panics (driverOutput : gmap string iface) (image : string) :
  driverOutput !! "image" = Some (IString image) ->
  image <> "" ->
  occurs colon image = false ->
  applyStack_imageInfo driverOutput = Panicked "index out of range".
Proof.
  intros Hget Hnonempty Hcolon. unfold applyStack_imageInfo. rewrite Hget.
  case_decide as Hempty; [contradiction|].
  cbv zeta. rewrite (Split_absent image colon Hcolon). reflexivity.
Qed.

Lemma image_without_colon_panics_witness :
  applyStack_imageInfo {[ "image" := IString "nginx" ]} = Panicked "index out of range".
Proof.
  apply (image_without_colon_panics {[ "image" := IString "nginx" ]} "nginx").
  - reflexivity.
  - discriminate.
  - reflexivity.
Defined.

(** The panic is not caught by [applyStack]: no request is sent. *)
Lemma applyStack_propagates_panic (client : Client) (t : DeployStackHook)
    (shouldCreate : bool) (driverOutput : gmap string iface) (msg : string) :
  applyStack_imageInfo driverOutput = Panicked msg ->
  applyStack client t shouldCreate driverOutput = Panicked msg.
Proof. unfold applyStack. by intros ->. Qed.

Lemma occurs_occurrences (c : ascii) (s : string) :
  occurs c s = false <-> occurrences c s = 0%nat.
Proof.
  induction s as [|a s IH]; simpl; [tauto|].
  destruct (Ascii.eqb a c); simpl; [split; [discriminate|lia]|exact IH].
Qed.

(** A string with the separator splits at its first occurrence. *)
Lemma occurs_decompose (c : ascii) (s : string) :
  occurs c s = true ->
  exists a b, s = a +:+ String c b /\ occurs c a = false.
Proof.
  induction s as [|x s IH]; simpl; [discriminate|].
  destruct (Ascii.eqb x c) eqn:Hx; simpl.
  - intros _. apply Ascii.eqb_eq in Hx. subst x. by exists "", s.
  - intros H. destruct (IH H) as (a & b & -> & Ha).
    exists (String x a), b. simpl. by rewrite Hx.
Qed.

Lemma occurs_app (c : ascii) (a b : string) :
  occurs c (a +:+ b) = occurs c a || occurs c b.
Proof. induction a as [|x a IH]; simpl; [reflexivity|]. by rewrite IH, orb_assoc. Qed.

Lemma occurrences_app (c : ascii) (a b : string) :
  occurrences c (a +:+ b) = (occurrences c a + occurrences c b)%nat.
Proof. induction a as [|x a IH]; simpl; [reflexivity|]. rewrite IH. lia. Qed.

Lemma occurrences_first (c : ascii) (a b : string) :
  occurrences c (a +:+ String c b) = S (occurrences c a + occurrences c b).
Proof. rewrite occurrences_app. simpl. rewrite Ascii.eqb_refl. lia. Qed.

(** No piece of a split holds the separator. *)
Lemma Split_pieces_clean (s : string) (sep : ascii) :
  Forall (fun piece => occurs sep piece = false) (Split s sep).
Proof.
  induction s as [|a s IH]; simpl.
  - by repeat constructor.
  - destruct (Ascii.eqb a sep) eqn:Ha.
    + by constructor.
    + destruct (Split s sep) as [|piece pieces].
      * repeat constructor. simpl. by rewrite Ha.
      * inversion IH; subst. constructor; [|assumption]. simpl. by rewrite Ha.
Qed.

(** X16: the image resolution panics exactly on a non-empty image string
    without a colon; on every other driver output it returns. *)
Theorem image_resolution_panics_exactly (driverOutput : gmap string iface) :
  (exists msg, applyStack_imageInfo driverOutput = Panicked msg) <->
  (exists image,
     driverOutput !! "image" = Some (IString image) /\
     image <> "" /\ occurs colon image = false).
Proof.
  split.
  - intros [msg H]. unfold applyStack_imageInfo in H.
    destruct (driverOutput !! "image") as [[| | |image]|]; try discriminate H.
    exists image. split; [reflexivity|].
    case_decide as Hempty; [discriminate H|]. split; [assumption|].
    destruct (occurs colon image) eqn:Hc; [|reflexivity].
    destruct (occurs_decompose _ _ Hc) as (a & b & -> & Ha).
    cbv zeta in H. rewrite (Split_first a b colon Ha) in H.
    destruct (Split b colon) eqn:Hb; [by destruct (Split_not_nil b colon)|].
    discriminate H.
  - intros (image & Hget & Hne & Hc). eexists.
    unfold applyStack_imageInfo. rewrite Hget.
    case_decide as Hempty; [contradiction|].
    cbv zeta. rewrite (Split_absent image colon Hc). reflexivity.
Qed.

(** X17: neither the repository nor the tag that the image resolution
    returns holds a colon. *)
Theorem resolved_image_has_no_colon (driverOutput : gmap string iface)
    (imageInfo : ImageInfo) :
  applyStack_imageInfo driverOutput = Returned imageInfo ->
  occurs colon (Repository imageInfo) = false /\
  occurs colon (Tag imageInfo) = false.
Proof.
  unfold applyStack_imageInfo.
  destruct (driverOutput !! "image") as [[| | |image]|];
    try (intros [= <-]; split; reflexivity).
  case_decide as Hempty; [intros [= <-]; split; reflexivity|].
  cbv zeta. pose proof (Split_pieces_clean image colon) as Hclean.
  destruct (Split image colon) as [|repo [|tag more]]; simpl; try discriminate.
  intros [= <-]. simpl.
  inversion Hclean as [|? ? Hrepo Hrest]; subst.
  inversion Hrest; subst. by split.
Qed.

(** X18: the image string is recovered from the resolved pair, as
    [repository:tag], exactly when it holds one colon; with more, what
    follows the second colon is lost. *)
Theorem image_survives_iff_one_colon (driverOutput : gmap string iface)
    (image : string) (imageInfo : ImageInfo) :
  driverOutput !! "image" = Some (IString image) ->
  image <> "" ->
  applyStack_imageInfo driverOutput = Returned imageInfo ->
  Repository imageInfo +:+ String colon (Tag imageInfo) = image <->
  occurrences colon image = 1%nat.
Proof.
  intros Hget Hne. unfold applyStack_imageInfo. rewrite Hget.
  case_decide as Hempty; [contradiction|]. cbv zeta.
  destruct (occurs colon image) eqn:Hc.
  - destruct (occurs_decompose _ _ Hc) as (repo & rest & -> & Hrepo).
    rewrite (Split_first repo rest colon Hrepo).
    destruct (Split rest colon) as [|tag more] eqn:Hrest;
      [by destruct (Split_not_nil rest colon)|].
    simpl. intros [= <-]. cbn [Repository Tag].
    rewrite occurrences_first.
    apply occurs_occurrences in Hrepo. rewrite Hrepo.
    destruct (occurs colon rest) eqn:Hcr.
    + destruct (occurs_decompose _ _ Hcr) as (a & b & -> & Ha).
      rewrite (Split_first a b colon Ha) in Hrest. injection Hrest as <- _.
      rewrite occurrences_first. split; [|lia].
      intros H. apply (f_equal (occurrences colon)) in H.
      rewrite !occurrences_first in H. lia.
    + rewrite (Split_absent rest colon Hcr) in Hrest. injection Hrest as <- _.
      apply occurs_occurrences in Hcr. rewrite Hcr. split; [lia|reflexivity].
  - rewrite (Split_absent image colon Hc). discriminate.
Qed.

(** X19: [PostApply] returns a nil error exactly when the image resolves
    and the call chosen by the probe succeeds: [CreateStack] after a failed
    probe, [UpdateStack] after a successful one, both with the stack name,
    the encoded manifest and the resolved image. *)
Theorem PostApply_succeeds_exactly (GetRelease : Z -> Z -> string -> string -> option error)
    (client : Client) (t : DeployStackHook) (driverOutput : gmap string iface) :
  PostApply GetRelease client t driverOutput = Returned None <->
  exists imageInfo,
    applyStack_imageInfo driverOutput = Returned imageInfo /\
    let request :=
      mkCreateStackReleaseRequest (StackName t) (EncodeToString client (PorterYAML t))
        imageInfo in
    match GetRelease (ProjectID t) (ClusterID t) ("porter-stack-" +:+ StackName t)
            (StackName t) with
    | Some _ => CreateStack client (ProjectID t) (ClusterID t) request = None
    | None => UpdateStack client (ProjectID t) (ClusterID t) (StackName t) request = None
    end.
Proof.
  unfold PostApply, applyStack. cbv zeta.
  destruct (applyStack_imageInfo driverOutput) as [imageInfo|msg].
  - destruct (GetRelease _ _ _ _).
    + destruct (CreateStack _ _ _ _) eqn:Hcall.
      * split; [discriminate|]. intros (ii & [= <-] & H). rewrite Hcall in H. discriminate H.
      * split; [|reflexivity]. intros _. exists imageInfo. by split.
    + destruct (UpdateStack _ _ _ _ _) eqn:Hcall.
      * split; [discriminate|]. intros (ii & [= <-] & H). rewrite Hcall in H. discriminate H.
      * split; [|reflexivity]. intros _. exists imageInfo. by split.
  - split; [discriminate|]. intros (ii & H & _). discriminate H.
Qed.

Lemma resolved_image_has_no_colon_witness :
  occurs colon (Repository (mkImageInfo "host" "5000/name")) = false /\
  occurs colon (Tag (mkImageInfo "host" "5000/name")) = false.
Proof.
  apply (resolved_image_has_no_colon {[ "image" := IString "host:5000/name:tag" ]}).
  reflexivity.
Defined.

Lemma image_survives_iff_one_colon_witness :
  Repository (mkImageInfo "nginx" "1.25") +:+ String colon (Tag (mkImageInfo "nginx" "1.25"))
  = "nginx:1.25"
  <-> occurrences colon "nginx:1.25" = 1%nat.
Proof.
  apply (image_survives_iff_one_colon {[ "image" := IString "nginx:1.25" ]}).
  - reflexivity.
  - discriminate.
  - reflexivity.
Defined.

End StackSpec.

(** * Properties of the handler *)

Module PorterAppSpec.
Import PorterApp Scenario.

Lemma releaseJobName_neq (stackName : string) : releaseJobNameOf stackName <> stackName.
Proof.
  unfold releaseJobNameOf. induction stackName as [|a s IH]; simpl.
  - discriminate.
  - intros H. injection H as H. by apply IH.
Qed.

Lemma releaseJobName_neq_sym (stackName : string) : stackName <> releaseJobNameOf stackName.
Proof. intros H. symmetry in H. by apply releaseJobName_neq in H. Qed.


Lemma builderFromDB_OverrideRelease (request : CreatePorterAppRequest)
    (app : result PorterApp) :
  req_OverrideRelease (builderFromDB request app) = req_OverrideRelease request.
Proof. by destruct app. Qed.

Lemma same_kind_refl (a : Event) : same_kind a a = true.
Proof.
  unfold same_kind. by rewrite Nat.eqb_refl, Bool.eqb_reflx.
Qed.

Lemma In_same_kind (a : Event) (t : Trace) :
  In a t -> existsb (same_kind a) t = true.
Proof.
  intros H. apply existsb_exists. exists a. split; [assumption|apply same_kind_refl].
Qed.

Lemma consecutive_In (l t : Trace) (a : Event) :
  consecutive l t -> In a l -> In a t.
Proof.
  intros (pre & post & ->) H. apply in_or_app. right. apply in_or_app. by left.
Qed.

Lemma consecutive_fst_kind (a : Event) (l t : Trace) :
  consecutive (a :: l) t -> existsb (same_kind a) t = true.
Proof.
  intros H. apply In_same_kind. eapply consecutive_In; [exact H|]. by left.
Qed.

Lemma consecutive_snd_kind (a b : Event) (l t : Trace) :
  consecutive (a :: b :: l) t -> existsb (same_kind b) t = true.
Proof.
  intros H. apply In_same_kind. eapply consecutive_In; [exact H|]. right. by left.
Qed.

Lemma consecutive_cons_inv (l t : Trace) (e : Event) :
  consecutive l (e :: t) -> (exists post, e :: t = l ++ post) \/ consecutive l t.
Proof.
  intros ([|p pre] & post & H).
  - left. by exists post.
  - right. injection H as _ H. by exists pre, post.
Qed.

Lemma consecutive_nil_inv (a : Event) (l : Trace) : ~ consecutive (a :: l) [].
Proof. intros ([|p pre] & post & H); discriminate H. Qed.

(** *** Symbolic execution of the handler *)

Local Arguments decide : simpl never.
Local Arguments bool_decide : simpl never.
Local Arguments Contains : simpl never.
Local Arguments patchPorterApp : simpl never.
Local Arguments newPorterApp : simpl never.
Local Arguments String.append : simpl never.
Local Arguments namespaceOf : simpl never.
Local Arguments releaseJobNameOf : simpl never.
Local Arguments int_add : simpl never.
Local Arguments imageInfoUnlessGiven : simpl never.
Local Arguments builderFromDB : simpl never.

Ltac unfold_handler :=
  unfold run, ServeHTTP, ServeHTTP_create, ServeHTTP_update, createReleaseJobChart,
    createPorterAppEvent, HandleAPIError, WriteResult, GetHelmAgent, GetAgent, GetRelease,
    ListRegistriesByProjectID, ReadPorterAppByName, parse, CreateNamespace, LoadChartPublic,
    InstallChart, UninstallChart, UpgradeReleaseByValues, UpgradeInstallChart,
    UpdatePorterApp, uuid_New, CreateEvent, deref, bind, ret, exit, call, emit.

(** One step: split on an answer the handler is waiting for.  The answers of
    the collaborators are recorded in the trace; conditions on the request
    are kept as equations. *)
Ltac exec_step :=
  match goal with
  | |- context [match ?x with _ => _ end] =>
      lazymatch x with
      | context [match _ with _ => _ end] => fail
      | _ =>
          lazymatch type of x with
          | result _ => destruct x
          | option error => destruct x
          | _ => destruct x eqn:?
          end
      end
  end.

(** All paths of [run w r], one goal each. *)
Ltac exec_handler w r :=
  let t := fresh "t" in
  let Ht := fresh "Ht" in
  remember (run w r) as t eqn:Ht; revert Ht;
  unfold_handler;
  destruct r as [? ? ? [?|] [?|?]]; simpl;
  repeat (exec_step; simpl);
  intros ->.

(** Discard a path on which no event of the kind of [a] occurs. *)
Ltac absent_kind F :=
  unfold same_kind in F; simpl in F; discriminate F.

(** Use a hypothesis [In e t] on an explicit trace [t]. *)
Ltac inv_In H :=
  first
    [ let F := fresh in pose proof (In_same_kind _ _ H) as F; absent_kind F
    | simpl in H;
      repeat (destruct H as [H|H]; [try discriminate H|]);
      try contradiction ].

(** Use a hypothesis [consecutive l t] on an explicit trace [t]. *)
Ltac inv_here H :=
  first [ discriminate H
        | let H1 := fresh in
          injection H as H1 H; first [discriminate H1 | inv_here H]
        | idtac ].

Ltac inv_positions H :=
  lazymatch type of H with
  | consecutive _ [] => destruct (consecutive_nil_inv _ _ H)
  | consecutive _ (_ :: _) =>
      let post := fresh "post" in
      apply consecutive_cons_inv in H; destruct H as [[post H]|H];
      [ simpl in H; inv_here H; simplify_eq | inv_positions H ]
  end.

Ltac inv_consecutive H :=
  first
    [ let F := fresh in pose proof (consecutive_fst_kind _ _ _ H) as F; absent_kind F
    | let F := fresh in pose proof (consecutive_snd_kind _ _ _ _ H) as F; absent_kind F
    | inv_positions H ].

(** Decide comparisons between the stack name and the release job name. *)
Ltac names :=
  repeat case_bool_decide;
  try match goal with
      | H : releaseJobNameOf ?s = ?s |- _ => destruct (releaseJobName_neq s H)
      | H : ?s = releaseJobNameOf ?s |- _ => destruct (releaseJobName_neq_sym s H)
      | H : ?x <> ?x |- _ => destruct (H eq_refl)
      end;
  simpl.

(** Use [H : EGetRelease n r = EGetRelease (releaseJobNameOf s) r'], which
    cannot speak of the probe of the main release. *)
Ltac job_probe H :=
  inversion H; subst;
  try match goal with
      | Hn : ?s = releaseJobNameOf ?s |- _ => destruct (releaseJobName_neq_sym s Hn)
      end;
  clear H.

(** Prove [consecutive l t] on an explicit trace [t]. *)
Ltac find_at n :=
  lazymatch goal with
  | |- consecutive ?l ?t =>
      exists (firstn n t), (skipn (n + length l) t); reflexivity
  end.

Ltac find_consecutive :=
  first [ find_at 0%nat | find_at 1%nat | find_at 2%nat | find_at 3%nat | find_at 4%nat
        | find_at 5%nat | find_at 6%nat | find_at 7%nat | find_at 8%nat | find_at 9%nat
        | find_at 10%nat | find_at 11%nat | find_at 12%nat | find_at 13%nat
        | find_at 14%nat | find_at 15%nat | find_at 16%nat ].

(** Prove [l `suffix_of` t] on an explicit trace [t]. *)
Ltac ends_with := solve [simpl; repeat first [reflexivity | apply suffix_cons_r]].

(** Prove [In e t] on an explicit trace [t]. *)
Ltac find_In := simpl; repeat (first [left; reflexivity | right]).

(** *** Two runs from start to end *)

(** First deploy of ["api"]: namespace, install, row, event with revision 1. *)
Example first_deploy :
  let w := world absent (Ok (mkParsed someChart mainValues None))
             installOk uninstallOk (Ok noApp) None in
  let conf := mkInstallChartConfig someChart "api" "porter-stack-api" mainValues 1
                ["registry.example"] in
  let row := newPorterApp (http false) "api" (request false) in
  drop 5 (run w (http false)) =
    [ECreateNamespace "porter-stack-api" None;
     EInstallChart conf (Ok (releaseOf "api" 1));
     EReadPorterAppByName 1 "api" (Ok noApp);
     EUpdatePorterApp row (Ok row);
     ECreateEvent (mkPorterAppEvent 42 "SUCCESS" "DEPLOY" "KUBERNETES" 0 1) None;
     EWriteResult row].
Proof. vm_compute. reflexivity. Qed.

(** Redeploy of ["api"] at version 4 without override: upgrade, row, event
    with revision 5. *)
Example redeploy :
  let w := world onlyMain (Ok (mkParsed someChart mainValues None))
             installOk uninstallOk (Ok storedApp) None in
  let conf := mkInstallChartConfig someChart "api" "porter-stack-api" mainValues 1
                ["registry.example"] in
  let row := patchPorterApp (request false) storedApp in
  drop 5 (run w (http false)) =
    [EUpgradeInstallChart conf (Ok (releaseOf "api" 5));
     EReadPorterAppByName 1 "api" (Ok storedApp);
     EUpdatePorterApp row (Ok row);
     ECreateEvent (mkPorterAppEvent 42 "SUCCESS" "DEPLOY" "KUBERNETES" 7 5) None;
     EWriteResult row].
Proof. vm_compute. reflexivity. Qed.

(** *** The validation gate *)

(** C4: when the parse / template-resolution step fails, the reconciliation
    ends with the parse error as its response, and its trace holds no cluster
    mutation (namespace creation, install, upgrade, uninstall) and no write to
    the relational store. *)
Theorem parse_failure_aborts_before_mutation (w : World) (r : HttpRequest)
    (args : ParseArgs) (e : error) :
  In (EParse args (Err e)) (run w r) ->
  never is_cluster_mutation (run w r) = true /\
  never is_db_write (run w r) = true /\
  never is_WriteResult (run w r) = true /\
  last (run w r) =
    Some (EHandleAPIError
            (ErrInternal ("error parsing porter.yaml into chart and values: " +:+ e))).
Proof.
  exec_handler w r; intros H; inv_In H.
  all: simplify_eq; repeat split; reflexivity.
Qed.

Lemma parse_failure_aborts_before_mutation_witness :
  let w := world absent (Err "yaml: line 3: mapping values are not allowed")
             installOk uninstallOk (Ok noApp) None in
  never is_cluster_mutation (run w (http true)) = true /\
  never is_db_write (run w (http true)) = true /\
  never is_WriteResult (run w (http true)) = true /\
  last (run w (http true)) =
    Some (EHandleAPIError
            (ErrInternal ("error parsing porter.yaml into chart and values: "
                          +:+ "yaml: line 3: mapping values are not allowed"))).
Proof.
  intros w.
  apply (parse_failure_aborts_before_mutation w (http true)
           (mkParseArgs "eWFtbA==" (mkImageInfo "registry.example/api" "v1") 2 None []
              "api" true)).
  vm_compute. right. right. right. right. left. reflexivity.
Defined.

(** *** Create or update *)

(** C3: the create arm is entered only when the probe of the main release
    returned an error, the update arm only when the probe succeeded, and never
    both; once the request has passed decoding, registry listing and parsing,
    the create arm is entered exactly when the probe failed and the update arm
    exactly when it succeeded. *)
Theorem create_or_update_by_probe (w : World) (r : HttpRequest) (stackName : string) :
  http_stackName r = Ok stackName ->
  (took_create (run w r) = true -> probe_failed stackName (run w r) = true) /\
  (took_update stackName (run w r) = true -> probe_succeeded stackName (run w r) = true) /\
  took_create (run w r) && took_update stackName (run w r) = false /\
  (parse_succeeded (run w r) = true ->
   took_create (run w r) = probe_failed stackName (run w r) /\
   took_update stackName (run w r) = probe_succeeded stackName (run w r)).
Proof.
  intros Hname. exec_handler w r; simpl in Hname; simplify_eq.
  all: unfold took_create, took_update, probe_failed, probe_succeeded, parse_succeeded.
  all: simpl; names.
  all: repeat split; intros; first [reflexivity | discriminate | congruence].
Qed.

Lemma create_or_update_by_probe_witness :
  let wc := world absent (Ok (mkParsed someChart mainValues None))
              installOk uninstallOk (Ok noApp) None in
  let wu := world onlyMain (Ok (mkParsed someChart mainValues None))
              installOk uninstallOk (Ok storedApp) None in
  (parse_succeeded (run wc (http false)) = true /\
   took_create (run wc (http false)) = true /\
   probe_failed "api" (run wc (http false)) = true /\
   took_update "api" (run wc (http false)) = false) /\
  (parse_succeeded (run wu (http false)) = true /\
   took_update "api" (run wu (http false)) = true /\
   probe_succeeded "api" (run wu (http false)) = true /\
   took_create (run wu (http false)) = false).
Proof.
  intros wc wu.
  pose proof (create_or_update_by_probe wc (http false) "api" eq_refl) as (_ & _ & Hc & Hcp).
  pose proof (create_or_update_by_probe wu (http false) "api" eq_refl) as (_ & _ & Hu & Hup).
  assert (parse_succeeded (run wc (http false)) = true) as Pc by (vm_compute; reflexivity).
  assert (parse_succeeded (run wu (http false)) = true) as Pu by (vm_compute; reflexivity).
  destruct (Hcp Pc) as [Hc1 Hc2]. destruct (Hup Pu) as [Hu1 Hu2].
  assert (probe_failed "api" (run wc (http false)) = true) as Fc
    by (vm_compute; reflexivity).
  assert (probe_succeeded "api" (run wu (http false)) = true) as Su
    by (vm_compute; reflexivity).
  rewrite Fc in Hc1. rewrite Su in Hu2.
  rewrite Hc1 in Hc. rewrite Hu2 in Hu. rewrite andb_true_r in Hu. simpl in Hc.
  repeat split; assumption.
Defined.

(** *** The create arm *)

(** C5: when the install of the main release fails, the reconciliation is on
    the create arm and ends with: the install error reported, an uninstall of
    the main release attempted, and, when that uninstall fails too, the
    rollback error reported after (not in place of) the install error.  No
    application row and no deploy event are written. *)
Theorem main_install_failure_rolls_back (w : World) (r : HttpRequest)
    (stackName : string) (conf : InstallChartConfig) (e : error) :
  http_stackName r = Ok stackName ->
  icc_Name conf = stackName ->
  In (EInstallChart conf (Err e)) (run w r) ->
  took_create (run w r) = true /\
  never is_db_write (run w r) = true /\
  never is_WriteResult (run w r) = true /\
  exists rollback,
    ([EInstallChart conf (Err e);
      EHandleAPIError (ErrPassThroughToClient ("error deploying app: " +:+ e) StatusBadRequest);
      EUninstallChart stackName rollback]
     ++ match rollback with
        | Some e' => [EHandleAPIError (ErrInternal ("error uninstalling chart: " +:+ e'))]
        | None => []
        end) `suffix_of` run w r.
Proof.
  intros Hname. exec_handler w r; simpl in Hname; simplify_eq.
  all: intros Hconf H; inv_In H; injection H as <- <-; simpl in Hconf.
  all: try (destruct (releaseJobName_neq _ Hconf)).
  all: repeat split; try reflexivity.
  all: first [ exists None; ends_with | eexists (Some _); ends_with ].
Qed.

Lemma main_install_failure_rolls_back_witness :
  let w := world absent (Ok (mkParsed someChart mainValues None))
             installMainFails uninstallFails (Ok noApp) None in
  never is_db_write (run w (http false)) = true /\
  [EHandleAPIError (ErrPassThroughToClient "error deploying app: timed out" 400);
   EUninstallChart "api" (Some "cluster unreachable");
   EHandleAPIError (ErrInternal "error uninstalling chart: cluster unreachable")]
    `suffix_of` run w (http false).
Proof.
  intros w.
  destruct (main_install_failure_rolls_back w (http false) "api"
              (mkInstallChartConfig someChart "api" "porter-stack-api" mainValues 1
                 ["registry.example"])
              "timed out" eq_refl eq_refl) as (_ & Hdb & _ & rollback & Hsuffix).
  - vm_compute. do 6 right. left. reflexivity.
  - split; [exact Hdb|].
    vm_compute. exists (firstn 7 (run w (http false))). vm_compute. reflexivity.
Defined.

(** C6: on the create arm, when the read that follows the successful install
    of the main release finds a row (its name is not empty), the handler
    answers with a pass-through error of status 403, which is not an internal
    error, and writes neither an application row nor a deploy event.  An
    application row is written on the create arm only right after that read
    returned a row with an empty name. *)
Theorem create_conflict_is_not_written (w : World) (r : HttpRequest) (stackName : string) :
  http_stackName r = Ok stackName ->
  (forall conf rel existing,
     icc_Name conf = stackName ->
     app_Name existing <> "" ->
     consecutive [EInstallChart conf (Ok rel);
                  EReadPorterAppByName (http_cluster_ID r) stackName (Ok existing)]
       (run w r) ->
     let conflict :=
       ErrPassThroughToClient
         ("app with name " +:+ app_Name existing +:+ " already exists in your project")
         StatusForbidden in
     last (run w r) = Some (EHandleAPIError conflict) /\
     (forall msg, conflict <> ErrInternal msg) /\
     never is_db_write (run w r) = true /\
     never is_WriteResult (run w r) = true) /\
  (forall app res,
     took_create (run w r) = true ->
     In (EUpdatePorterApp app res) (run w r) ->
     exists conf rel existing,
       icc_Name conf = stackName /\
       app_Name existing = "" /\
       consecutive [EInstallChart conf (Ok rel);
                    EReadPorterAppByName (http_cluster_ID r) stackName (Ok existing);
                    EUpdatePorterApp app res]
         (run w r)).
Proof.
  intros Hname. exec_handler w r; simpl in Hname; simplify_eq.
  all: split.
  all: try (intros conf rel existing Hconf Hexisting H; revert Hconf Hexisting;
            inv_consecutive H; intros Hconf Hexisting;
            simpl in Hconf; try (destruct (releaseJobName_neq _ Hconf));
            try contradiction; cbv zeta;
            repeat split; intros; first [reflexivity | discriminate]).
  all: intros app res Hcreate H; unfold took_create in Hcreate; simpl in Hcreate;
       try discriminate Hcreate; inv_In H.
  all: injection H as <- <-.
  all: eexists _, _, _; split; [|split]; [| |find_consecutive]; [reflexivity|assumption].
Qed.

Lemma create_conflict_is_not_written_witness :
  let w := world absent (Ok (mkParsed someChart mainValues None))
             installOk uninstallOk (Ok storedApp) None in
  last (run w (http false)) =
    Some (EHandleAPIError
            (ErrPassThroughToClient "app with name api already exists in your project" 403)) /\
  never is_db_write (run w (http false)) = true.
Proof.
  intros w.
  destruct (create_conflict_is_not_written w (http false) "api" eq_refl) as [H _].
  destruct (H (mkInstallChartConfig someChart "api" "porter-stack-api" mainValues 1
                 ["registry.example"])
              (releaseOf "api" 1) storedApp eq_refl) as (Hlast & _ & Hdb & _).
  - discriminate.
  - exists (firstn 6 (run w (http false))), (skipn 8 (run w (http false))).
    vm_compute. reflexivity.
  - split; assumption.
Defined.

(** C10: on the create arm, with override set and release job values that are
    not nil, every install of the main release comes right after a successful
    install of the release job with those values; and when the install of the
    main release has failed, the only release the handler uninstalls is the
    main one, so that the release job is still installed when the handler
    returns. *)
Theorem job_release_survives_main_rollback (w : World) (r : HttpRequest)
    (stackName : string) (request : CreatePorterAppRequest)
    (args : ParseArgs) (parsed : Parsed) :
  http_body r = Some request ->
  http_stackName r = Ok stackName ->
  req_OverrideRelease request = true ->
  p_releaseJobValues parsed <> None ->
  took_create (run w r) = true ->
  In (EParse args (Ok parsed)) (run w r) ->
  forall conf res,
    icc_Name conf = stackName ->
    In (EInstallChart conf res) (run w r) ->
    exists jobConf jobRel,
      icc_Name jobConf = releaseJobNameOf stackName /\
      icc_Values jobConf = p_releaseJobValues parsed /\
      consecutive [EInstallChart jobConf (Ok jobRel); EInstallChart conf res] (run w r) /\
      (forall e, res = Err e ->
         (forall name out, In (EUninstallChart name out) (run w r) -> name = stackName) /\
         (forall c0, releaseJobNameOf stackName ∈ installed_after (run w r) c0)).
Proof.
  intros Hbody Hname Hoverride Hjob.
  exec_handler w r; simpl in Hbody, Hname; simplify_eq.
  all: intros Hcreate; unfold took_create in Hcreate; simpl in Hcreate;
       try discriminate Hcreate; clear Hcreate.
  all: intros Hparse; inv_In Hparse; injection Hparse as <- <-.
  all: try match goal with
           | H : req_OverrideRelease _ && _ = false |- _ =>
               rewrite builderFromDB_OverrideRelease, ?Hoverride in H;
               destruct (p_releaseJobValues _); [discriminate H | contradiction]
           | H : req_OverrideRelease ?c && _ = false |- _ =>
               rewrite Hoverride in H;
               destruct (p_releaseJobValues _); [discriminate H | contradiction]
           end.
  all: intros conf res Hconf Hinstall; inv_In Hinstall; injection Hinstall as <- <-.
  all: simpl in Hconf; try (destruct (releaseJobName_neq _ Hconf)).
  all: eexists _, _; refine (conj _ (conj _ (conj _ _)));
       [ | | find_consecutive | ]; [reflexivity | reflexivity | ].
  all: intros e' He'; try discriminate He'; split.
  all: try (intros name out Hun; inv_In Hun; injection Hun as <- <-; reflexivity).
  all: intros c0; unfold installed_after; simpl.
  all: pose proof (releaseJobName_neq stackName); set_solver.
Qed.

Lemma job_release_survives_main_rollback_witness :
  let w := world absent (Ok (mkParsed someChart mainValues jobValues))
             installMainFails uninstallFails (Ok noApp) None in
  (forall name out, In (EUninstallChart name out) (run w (http true)) -> name = "api") /\
  "api-r" ∈ installed_after (run w (http true)) ∅.
Proof.
  intros w.
  destruct (job_release_survives_main_rollback w (http true) "api" (request true)
              (mkParseArgs "eWFtbA==" (mkImageInfo "registry.example/api" "v1") 2 None []
                 "api" true)
              (mkParsed someChart mainValues jobValues)
              eq_refl eq_refl eq_refl)
    with (conf := mkInstallChartConfig someChart "api" "porter-stack-api" mainValues 1
                    ["registry.example"])
         (res := @Err Release "timed out")
    as (jobConf & jobRel & _ & _ & _ & H).
  - discriminate.
  - vm_compute. reflexivity.
  - vm_compute. do 4 right. left. reflexivity.
  - reflexivity.
  - vm_compute. do 8 right. left. reflexivity.
  - destruct (H "timed out" eq_refl) as [Hun Hset]. split; [exact Hun|exact (Hset ∅)].
Defined.

(** *** The release job on the update arm *)

(** X14: on the update arm with override set, three rows of the table of
    section 4.4 are what the handler does to the release job. *)
Lemma job_table_rows_followed (w : World) (r : HttpRequest) (stackName : string)
    (request : CreatePorterAppRequest) (args : ParseArgs) (parsed : Parsed)
    (probe : result Release) :
  http_body r = Some request ->
  http_stackName r = Ok stackName ->
  req_OverrideRelease request = true ->
  In (EParse args (Ok parsed)) (run w r) ->
  In (EGetRelease (releaseJobNameOf stackName) probe) (run w r) ->
  job_row_followed stackName probe (p_releaseJobValues parsed) (run w r).
Proof.
  intros Hbody Hname Hoverride.
  exec_handler w r; simpl in Hbody, Hname; simplify_eq.
  all: intros Hparse; inv_In Hparse; injection Hparse as <- <-.
  all: intros Hprobe; inv_In Hprobe; job_probe Hprobe.
  all: unfold job_row_followed.
  all: destruct (p_releaseJobValues _) as [v|] eqn:Hjv;
       repeat match goal with
              | H : isNil _ = _ |- _ => simpl in H; try discriminate H; clear H
              end;
       try exact I.
  all: try (intros url chart Hload; inv_In Hload).
  all: unfold job_actions; simpl; names.
  all: first [reflexivity | eexists; reflexivity].
Qed.

(** C1, the row the handler does not follow: on the update arm with override
    set, when the release job does not exist and the requested job values are
    nil, the handler, once the job chart has loaded, installs the release job
    with nil values, where the table asks for nothing to be done. *)
Theorem missing_job_without_values_is_installed (w : World) (r : HttpRequest)
    (stackName : string) (request : CreatePorterAppRequest)
    (args : ParseArgs) (parsed : Parsed) (e : error) (chart : Chart) :
  http_body r = Some request ->
  http_stackName r = Ok stackName ->
  req_OverrideRelease request = true ->
  In (EParse args (Ok parsed)) (run w r) ->
  p_releaseJobValues parsed = None ->
  In (EGetRelease (releaseJobNameOf stackName) (Err e)) (run w r) ->
  In (ELoadChartPublic (DefaultApplicationHelmRepoURL (w_Config w)) (Ok chart)) (run w r) ->
  spec_job_table false None = [] /\
  exists rest, job_actions stackName (run w r) = JobInstall None :: rest.
Proof.
  intros Hbody Hname Hoverride.
  exec_handler w r; simpl in Hbody, Hname; simplify_eq.
  all: intros Hparse; inv_In Hparse; injection Hparse as <- <-.
  all: intros Hnil Hprobe; inv_In Hprobe; job_probe Hprobe.
  all: intros Hload; inv_In Hload.
  all: split; [reflexivity|].
  all: unfold job_actions; simpl; rewrite Hnil; names.
  all: eexists; reflexivity.
Qed.

Lemma missing_job_without_values_is_installed_witness :
  let w := world onlyMain (Ok (mkParsed someChart mainValues None))
             installOk uninstallOk (Ok storedApp) None in
  spec_job_table false None = [] /\
  exists rest, job_actions "api" (run w (http true)) = JobInstall None :: rest.
Proof.
  intros w.
  apply (missing_job_without_values_is_installed w (http true) "api" (request true)
           (mkParseArgs "eWFtbA==" (mkImageInfo "registry.example/api" "v1") 2 None []
              "api" true)
           (mkParsed someChart mainValues None) "release: not found" jobChart).
  - reflexivity.
  - reflexivity.
  - reflexivity.
  - vm_compute. do 4 right. left. reflexivity.
  - reflexivity.
  - vm_compute. do 5 right. left. reflexivity.
  - vm_compute. do 6 right. left. reflexivity.
Defined.

(** C2, as the handler runs it: on the update arm with override set, nil job
    values and an existing release job, the handler uninstalls the release
    job and returns.  It reports the error of a failed uninstall; in no case
    does it upgrade the main release, write the application row, append a
    deploy event or write a result. *)
Theorem job_uninstall_ends_update (w : World) (r : HttpRequest)
    (stackName : string) (request : CreatePorterAppRequest)
    (args : ParseArgs) (parsed : Parsed) (jobRelease : Release) :
  http_body r = Some request ->
  http_stackName r = Ok stackName ->
  req_OverrideRelease request = true ->
  In (EParse args (Ok parsed)) (run w r) ->
  p_releaseJobValues parsed = None ->
  In (EGetRelease (releaseJobNameOf stackName) (Ok jobRelease)) (run w r) ->
  never is_UpgradeInstallChart (run w r) = true /\
  never is_db_write (run w r) = true /\
  never is_WriteResult (run w r) = true /\
  exists out,
    ([EGetRelease (releaseJobNameOf stackName) (Ok jobRelease);
      EUninstallChart (releaseJobNameOf stackName) out]
     ++ match out with
        | Some e => [EHandleAPIError
                       (ErrInternal ("error uninstalling release job chart: " +:+ e))]
        | None => []
        end) `suffix_of` run w r.
Proof.
  intros Hbody Hname Hoverride.
  exec_handler w r; simpl in Hbody, Hname; simplify_eq.
  all: intros Hparse; inv_In Hparse; injection Hparse as <- <-.
  all: intros Hnil Hprobe; inv_In Hprobe; job_probe Hprobe.
  all: try match goal with
           | H : isNil _ = false |- _ => rewrite Hnil in H; discriminate H
           end.
  all: repeat split; try reflexivity.
  all: first [ exists None; ends_with | eexists (Some _); ends_with ].
Qed.

Lemma job_uninstall_ends_update_witness :
  let w := world mainAndJob (Ok (mkParsed someChart mainValues None))
             installOk uninstallOk (Ok storedApp) None in
  never is_UpgradeInstallChart (run w (http true)) = true /\
  never is_db_write (run w (http true)) = true /\
  never is_HandleAPIError (run w (http true)) = true /\
  never is_WriteResult (run w (http true)) = true /\
  last (run w (http true)) = Some (EUninstallChart "api-r" None).
Proof.
  intros w.
  destruct (job_uninstall_ends_update w (http true) "api" (request true)
              (mkParseArgs "eWFtbA==" (mkImageInfo "registry.example/api" "v1") 2 None []
                 "api" true)
              (mkParsed someChart mainValues None) (releaseOf "api-r" 4)
              eq_refl eq_refl eq_refl) as (Hup & Hdb & Hres & _).
  - vm_compute. do 4 right. left. reflexivity.
  - reflexivity.
  - vm_compute. do 5 right. left. reflexivity.
  - repeat split; try assumption; vm_compute; reflexivity.
Defined.

(** X13: what the update arm does when it is not cut short: a deploy event
    is appended only after the main release has been upgraded, and its
    revision is the version of the probed release plus one. *)
Lemma update_event_revision (w : World) (r : HttpRequest) (stackName : string)
    (event : PorterAppEvent) (out : option error) :
  http_stackName r = Ok stackName ->
  took_update stackName (run w r) = true ->
  In (ECreateEvent event out) (run w r) ->
  exists rel conf upgraded,
    In (EGetRelease stackName (Ok rel)) (run w r) /\
    icc_Name conf = stackName /\
    In (EUpgradeInstallChart conf (Ok upgraded)) (run w r) /\
    ev_revision event = int_add (rel_Version rel) 1 /\
    ev_Type event = "DEPLOY" /\
    ev_Status event = "SUCCESS".
Proof.
  intros Hname.
  exec_handler w r; simpl in Hname; simplify_eq.
  all: intros Hupdate H; inv_In H; injection H as <- _.
  all: unfold took_update in Hupdate; simpl in Hupdate;
       revert Hupdate; names; intros Hupdate; try discriminate Hupdate.
  all: eexists _, _, _; refine (conj _ (conj _ (conj _ _)));
       [find_In | | find_In | ]; [reflexivity | repeat split].
Qed.

Lemma int_add_no_overflow (v : Z) :
  - 2 ^ 63 <= v < 2 ^ 63 - 1 -> int_add v 1 = v + 1.
Proof.
  intros H. unfold int_add, wrap_int.
  rewrite Z.mod_small by lia. lia.
Qed.

(** *** The deploy event *)

(** C8, as the handler runs it: when appending the deploy event fails, the
    handler reports no error at all and ends by writing the success result. *)
Theorem deploy_event_failure_is_not_reported (w : World) (r : HttpRequest)
    (event : PorterAppEvent) (e : error) :
  In (ECreateEvent event (Some e)) (run w r) ->
  never is_HandleAPIError (run w r) = true /\
  exists app, [ECreateEvent event (Some e); EWriteResult app] `suffix_of` run w r.
Proof.
  exec_handler w r; intros H; inv_In H.
  all: injection H as <- Hfailed.
  all: split; [reflexivity|eexists; simpl; rewrite Hfailed; ends_with].
Qed.

Lemma deploy_event_failure_is_not_reported_witness :
  let w := world absent (Ok (mkParsed someChart mainValues None))
             installOk uninstallOk (Ok noApp) (Some "events: connection refused") in
  never is_HandleAPIError (run w (http false)) = true /\
  exists app,
    [ECreateEvent (mkPorterAppEvent 42 "SUCCESS" "DEPLOY" "KUBERNETES" 0 1)
       (Some "events: connection refused");
     EWriteResult app] `suffix_of` run w (http false).
Proof.
  intros w.
  apply (deploy_event_failure_is_not_reported w (http false)).
  vm_compute. do 9 right. left. reflexivity.
Defined.

(** *** The application row on the update arm *)

Lemma patchPorterApp_field_rule (f : Field) (request : CreatePorterAppRequest)
    (app : PorterApp) :
  field_rule f request app (patchPorterApp request app).
Proof.
  unfold field_rule, patchPorterApp, sentinel.
  destruct f; simpl; repeat case_decide; intuition congruence.
Qed.

Lemma patchPorterApp_untouched (request : CreatePorterAppRequest) (app : PorterApp) :
  untouched app (patchPorterApp request app).
Proof. unfold untouched, patchPorterApp. simpl. tauto. Qed.

(** C7, as stated, fails: an update request whose [RepoName] is the sentinel
    leaves the sentinel itself, not the empty string, in the stored row. *)
Lemma sentinel_is_stored_in_RepoName :
  let w := world onlyMain (Ok (mkParsed someChart mainValues None))
             installOk uninstallOk (Ok storedApp) None in
  exists before after res,
    took_update "api" (run w sentinelHttp) = true /\
    consecutive [EReadPorterAppByName 1 "api" (Ok before); EUpdatePorterApp after res]
      (run w sentinelHttp) /\
    incoming FRepoName sentinelRequest = sentinel /\
    stored FRepoName after = "null" /\
    ~ spec_field_rule FRepoName sentinelRequest before after.
Proof.
  intros w.
  exists storedApp, (patchPorterApp sentinelRequest storedApp),
    (Ok (patchPorterApp sentinelRequest storedApp)).
  split; [vm_compute; reflexivity|].
  split; [exists (firstn 6 (run w sentinelHttp)), (skipn 8 (run w sentinelHttp));
          vm_compute; reflexivity|].
  split; [reflexivity|]. split; [reflexivity|].
  intros (_ & _ & Hclear). specialize (Hclear eq_refl). discriminate Hclear.
Qed.

(** C7, amended: on the update arm, the row written is the row just read,
    changed field by field from the request (its [Builder] first taken from
    the stored row when empty): an empty incoming value leaves the field, a
    non-empty one overwrites it, except that the sentinel empties [Builder],
    [Buildpacks] and [Dockerfile]; in the other five fields the sentinel is
    stored as it is.  The fields no rule names are unchanged. *)
Theorem update_applies_field_rules (w : World) (r : HttpRequest) (stackName : string)
    (request : CreatePorterAppRequest) (after : PorterApp) (res : result PorterApp) :
  http_body r = Some request ->
  http_stackName r = Ok stackName ->
  took_update stackName (run w r) = true ->
  In (EUpdatePorterApp after res) (run w r) ->
  exists before,
    consecutive [EReadPorterAppByName (http_cluster_ID r) stackName (Ok before);
                 EUpdatePorterApp after res] (run w r) /\
    (forall f, field_rule f (effective_request request (run w r)) before after) /\
    untouched before after.
Proof.
  intros Hbody Hname.
  exec_handler w r; simpl in Hbody, Hname; simplify_eq.
  all: intros Hupdate H; inv_In H; injection H as <- <-.
  all: unfold took_update in Hupdate; simpl in Hupdate;
       revert Hupdate; names; intros Hupdate; try discriminate Hupdate.
  all: eexists; split; [find_consecutive|].
  all: unfold effective_request; simpl;
       match goal with
       | H : decide _ = _ |- _ => rewrite H
       end.
  all: split; [intros f; apply patchPorterApp_field_rule|apply patchPorterApp_untouched].
Qed.

Lemma update_applies_field_rules_witness :
  let w := world onlyMain (Ok (mkParsed someChart mainValues None))
             installOk uninstallOk (Ok storedApp) None in
  exists before,
    consecutive [EReadPorterAppByName 1 "api" (Ok before);
                 EUpdatePorterApp (patchPorterApp sentinelRequest storedApp)
                   (Ok (patchPorterApp sentinelRequest storedApp))]
      (run w sentinelHttp) /\
    (forall f, field_rule f (effective_request sentinelRequest (run w sentinelHttp)) before
                 (patchPorterApp sentinelRequest storedApp)) /\
    untouched before (patchPorterApp sentinelRequest storedApp).
Proof.
  intros w.
  apply (update_applies_field_rules w sentinelHttp "api" sentinelRequest
           (patchPorterApp sentinelRequest storedApp)
           (Ok (patchPorterApp sentinelRequest storedApp)) eq_refl eq_refl).
  - vm_compute. reflexivity.
  - vm_compute. do 7 right. left. reflexivity.
Defined.

(** *** Further properties of the handler *)

(** Evaluate a run in a concrete world and look an event up in it. *)
Ltac in_run := vm_compute; repeat first [left; reflexivity | right].

(** X1: the handler never reads through a nil release: lines 105-106 and
    365 run only after a successful probe. *)
Theorem helmRelease_is_never_nil_when_read (w : World) (r : HttpRequest) :
  never is_Panic (run w r) = true.
Proof.
  exec_handler w r; reflexivity.
Qed.

(** X2: the cluster is changed only in runs in which [parse] has
    succeeded; no failure before it leaves a mutation behind. *)
Theorem mutations_follow_validation (w : World) (r : HttpRequest) :
  existsb is_cluster_mutation (run w r) = true ->
  parse_succeeded (run w r) = true.
Proof.
  exec_handler w r; intros H; first [discriminate H | reflexivity].
Qed.

(** X3: a run writes at most one result and reports at most two errors;
    when it writes a result it has reported no error, and the result is its
    last step. *)
Theorem answers_once (w : World) (r : HttpRequest) :
  (count is_WriteResult (run w r) <= 1)%nat /\
  (count is_HandleAPIError (run w r) <= 2)%nat /\
  (existsb is_WriteResult (run w r) = true ->
   never is_HandleAPIError (run w r) = true /\
   exists app, last (run w r) = Some (EWriteResult app)).
Proof.
  exec_handler w r; unfold count; simpl.
  all: split; [lia|split; [lia|]].
  all: intros H; first [discriminate H | split; [reflexivity|eexists; reflexivity]].
Qed.

(** X4: the relational store is written only in runs in which the install
    or the upgrade-install of the main release has succeeded. *)
Theorem writes_follow_main_deploy (w : World) (r : HttpRequest) (stackName : string) :
  http_stackName r = Ok stackName ->
  existsb is_db_write (run w r) = true ->
  existsb (is_main_deployed stackName) (run w r) = true.
Proof.
  intros Hname. exec_handler w r; simpl in Hname; simplify_eq.
  all: intros H; try discriminate H.
  all: simpl; names; reflexivity.
Qed.

(** X5: the only runs that answer nothing, neither error nor result, are
    those that end with a successful uninstall of the release job. *)
Theorem silent_only_after_job_uninstall (w : World) (r : HttpRequest) :
  existsb is_response (run w r) = false ->
  exists stackName,
    http_stackName r = Ok stackName /\
    last (run w r) = Some (EUninstallChart (releaseJobNameOf stackName) None).
Proof.
  exec_handler w r; intros H; try discriminate H.
  all: eexists; split; reflexivity.
Qed.

(** X6: without the override flag the handler neither probes nor installs,
    upgrades or uninstalls the release job, on either arm. *)
Theorem no_override_leaves_job_release (w : World) (r : HttpRequest)
    (stackName : string) (request : CreatePorterAppRequest) :
  http_body r = Some request ->
  http_stackName r = Ok stackName ->
  req_OverrideRelease request = false ->
  job_actions stackName (run w r) = [] /\
  existsb (is_job_probe stackName) (run w r) = false.
Proof.
  intros Hbody Hname Hoverride.
  exec_handler w r; simpl in Hbody, Hname; simplify_eq.
  all: repeat match goal with
              | H : context [req_OverrideRelease (builderFromDB _ _)] |- _ =>
                  rewrite builderFromDB_OverrideRelease in H
              end.
  all: try congruence.
  all: try match goal with
           | H : req_OverrideRelease ?c && _ = true |- _ =>
               rewrite Hoverride in H; discriminate H
           end.
  all: unfold job_actions; simpl; names; split; reflexivity.
Qed.

Ltac main_probe H :=
  inversion H; subst;
  try match goal with
      | Hn : releaseJobNameOf ?s = ?s |- _ => destruct (releaseJobName_neq s Hn)
      end;
  clear H.


(** X8: [parse] receives the image of the request, except on an override of
    an existing release with the repository or the tag missing, where it
    receives the image found in the configuration of that release.  A first
    deploy never looks at a release. *)
Theorem parse_receives_image (w : World) (r : HttpRequest) (stackName : string)
    (request : CreatePorterAppRequest) (args : ParseArgs) (res : result Parsed)
    (probe : result Release) :
  http_body r = Some request ->
  http_stackName r = Ok stackName ->
  In (EGetRelease stackName probe) (run w r) ->
  In (EParse args res) (run w r) ->
  pa_imageInfo args = image_for_parse w request probe.
Proof.
  intros Hbody Hname.
  exec_handler w r; simpl in Hbody, Hname; simplify_eq.
  all: intros Hprobe Hparse; inv_In Hparse; injection Hparse as <- _.
  all: inv_In Hprobe; main_probe Hprobe.
  all: repeat match goal with
              | H : context [req_OverrideRelease (builderFromDB _ _)] |- _ =>
                  rewrite builderFromDB_OverrideRelease in H
              end.
  all: try congruence.
  all: unfold image_for_parse, imageInfoUnlessGiven; simpl;
       repeat match goal with
              | H : req_OverrideRelease _ = _ |- _ => rewrite H
              end; reflexivity.
Qed.

(** X9: when the install of the release job fails, on either arm, the run
    ends with the error reported, an uninstall of the release job attempted
    and its failure reported after it; the main release is neither installed
    nor upgraded, and nothing is written. *)
Theorem job_install_failure_rolls_back (w : World) (r : HttpRequest)
    (stackName : string) (conf : InstallChartConfig) (e : error) :
  http_stackName r = Ok stackName ->
  icc_Name conf = releaseJobNameOf stackName ->
  In (EInstallChart conf (Err e)) (run w r) ->
  never (is_main_deploy stackName) (run w r) = true /\
  never is_db_write (run w r) = true /\
  never is_WriteResult (run w r) = true /\
  exists rollback,
    ([EInstallChart conf (Err e);
      EHandleAPIError (ErrInternal ("error creating release job chart: " +:+ e));
      EUninstallChart (releaseJobNameOf stackName) rollback]
     ++ match rollback with
        | Some e' =>
            [EHandleAPIError
               (ErrInternal ("error uninstalling release job chart: " +:+ e'))]
        | None => []
        end) `suffix_of` run w r.
Proof.
  intros Hname. exec_handler w r; simpl in Hname; simplify_eq.
  all: intros Hconf H; inv_In H; injection H as <- <-; simpl in Hconf.
  all: try (destruct (releaseJobName_neq_sym _ Hconf)).
  all: unfold never; simpl; names.
  all: repeat split; try reflexivity.
  all: first [ exists None; ends_with | eexists (Some _); ends_with ].
Qed.

(** X10: when the namespace cannot be created the run ends with that one
    error: no release is installed, upgraded or uninstalled and nothing is
    written. *)
Theorem namespace_failure_stops (w : World) (r : HttpRequest)
    (namespace : string) (e : error) :
  In (ECreateNamespace namespace (Some e)) (run w r) ->
  never is_release_call (run w r) = true /\
  never is_db_write (run w r) = true /\
  count is_HandleAPIError (run w r) = 1%nat /\
  last (run w r) = Some (EHandleAPIError (ErrInternal ("error creating namespace: " +:+ e))).
Proof.
  exec_handler w r; intros H; inv_In H; injection H as <- <-.
  all: repeat split; reflexivity.
Qed.

(** X11: when the write of the application row fails, the run ends with
    that error as an internal error, appends no event and writes no result;
    the main release, already deployed, is left installed. *)
Theorem row_write_failure_is_reported (w : World) (r : HttpRequest)
    (stackName : string) (row : PorterApp) (e : error) :
  http_stackName r = Ok stackName ->
  In (EUpdatePorterApp row (Err e)) (run w r) ->
  (exists msg,
     last (run w r) = Some (EHandleAPIError (ErrInternal (msg +:+ e))) /\
     (msg = "error writing app to DB: " \/ msg = "error writing updated app to DB: ")) /\
  count is_db_write (run w r) = 1%nat /\
  never is_WriteResult (run w r) = true /\
  (forall c0, stackName ∈ installed_after (run w r) c0).
Proof.
  intros Hname. exec_handler w r; simpl in Hname; simplify_eq.
  all: intros H; inv_In H; injection H as <- <-.
  all: split; [eexists; split; [reflexivity|tauto]|].
  all: repeat split; try reflexivity.
  all: intros c0; unfold installed_after; simpl.
  all: pose proof (releaseJobName_neq stackName); set_solver.
Qed.

(** X12: on the create arm the row written is built from the stack name,
    the scopes and the request; the event appended right after it carries
    the id of the row as stored and revision 1, and the stored row is the
    result written. *)
Theorem first_deploy_event (w : World) (r : HttpRequest) (stackName : string)
    (request : CreatePorterAppRequest) (event : PorterAppEvent) (out : option error) :
  http_body r = Some request ->
  http_stackName r = Ok stackName ->
  took_create (run w r) = true ->
  In (ECreateEvent event out) (run w r) ->
  exists saved,
    consecutive
      [EUpdatePorterApp
         (newPorterApp r stackName (effective_request request (run w r))) (Ok saved);
       ECreateEvent event out;
       EWriteResult saved] (run w r) /\
    ev_PorterAppID event = app_ID saved /\
    ev_revision event = 1 /\
    ev_Type event = "DEPLOY" /\
    ev_Status event = "SUCCESS".
Proof.
  intros Hbody Hname.
  exec_handler w r; simpl in Hbody, Hname; simplify_eq.
  all: intros Hcreate H; unfold took_create in Hcreate; simpl in Hcreate;
       try discriminate Hcreate; inv_In H; injection H as <- <-.
  all: unfold effective_request; simpl;
       match goal with
       | H : decide _ = _ |- _ => rewrite H
       end.
  all: eexists; split; [find_consecutive|repeat split].
Qed.

(** X15: every install and upgrade-install names the main release or the
    release job, in the namespace of the stack and in the cluster of the
    request, with the registries as [ListRegistriesByProjectID] returned
    them. *)
Theorem releases_target_the_stack (w : World) (r : HttpRequest) (stackName : string)
    (conf : InstallChartConfig) (res : result Release) :
  http_stackName r = Ok stackName ->
  In (EInstallChart conf res) (run w r) \/ In (EUpgradeInstallChart conf res) (run w r) ->
  icc_Namespace conf = namespaceOf stackName /\
  (icc_Name conf = stackName \/ icc_Name conf = releaseJobNameOf stackName) /\
  icc_ClusterID conf = http_cluster_ID r /\
  In (EListRegistriesByProjectID (http_cluster_ProjectID r) (Ok (icc_Registries conf)))
    (run w r).
Proof.
  intros Hname. exec_handler w r; simpl in Hname; simplify_eq.
  all: intros [H|H]; inv_In H; injection H as <- <-.
  all: simpl; repeat split; try tauto; find_In.
Qed.

Lemma mutations_follow_validation_witness :
  parse_succeeded (run firstDeploy (http false)) = true.
Proof.
  apply (mutations_follow_validation firstDeploy (http false)). vm_compute. reflexivity.
Defined.

Lemma writes_follow_main_deploy_witness :
  existsb (is_main_deployed "api") (run firstDeploy (http false)) = true.
Proof.
  apply (writes_follow_main_deploy firstDeploy (http false) "api" eq_refl).
  vm_compute. reflexivity.
Defined.

Lemma silent_only_after_job_uninstall_witness :
  let w := world mainAndJob (Ok parsedPlain) installOk uninstallOk (Ok storedApp) None in
  exists stackName,
    http_stackName (http true) = Ok stackName /\
    last (run w (http true)) = Some (EUninstallChart (releaseJobNameOf stackName) None).
Proof.
  intros w. apply (silent_only_after_job_uninstall w (http true)). vm_compute. reflexivity.
Defined.

Lemma no_override_leaves_job_release_witness :
  let w := world mainAndJob (Ok parsedWithJob) installOk uninstallOk (Ok storedApp) None in
  job_actions "api" (run w (http false)) = [] /\
  existsb (is_job_probe "api") (run w (http false)) = false.
Proof.
  intros w.
  apply (no_override_leaves_job_release w (http false) "api" (request false));
    reflexivity.
Defined.


Lemma parse_receives_image_witness :
  pa_imageInfo parseArgs = image_for_parse redeployed (request false) (Ok (releaseOf "api" 4)).
Proof.
  apply (parse_receives_image redeployed (http false) "api" (request false)
           parseArgs (Ok parsedPlain) (Ok (releaseOf "api" 4)) eq_refl eq_refl).
  - in_run.
  - in_run.
Defined.

Lemma job_install_failure_rolls_back_witness :
  let w := world absent (Ok parsedWithJob) installJobFails uninstallFails (Ok noApp) None in
  never (is_main_deploy "api") (run w (http true)) = true /\
  never is_db_write (run w (http true)) = true.
Proof.
  intros w.
  destruct (job_install_failure_rolls_back w (http true) "api" jobConf "timed out"
              eq_refl eq_refl) as (Hmain & Hdb & _).
  - in_run.
  - split; assumption.
Defined.

Lemma namespace_failure_stops_witness :
  let w := world2 (Some "namespaces is forbidden") (fun app => Ok app) absent
             (Ok parsedPlain) installOk in
  never is_release_call (run w (http false)) = true /\
  never is_db_write (run w (http false)) = true /\
  count is_HandleAPIError (run w (http false)) = 1%nat /\
  last (run w (http false))
  = Some (EHandleAPIError
            (ErrInternal ("error creating namespace: " +:+ "namespaces is forbidden"))).
Proof.
  intros w.
  apply (namespace_failure_stops w (http false) "porter-stack-api"). in_run.
Defined.

Lemma row_write_failure_is_reported_witness :
  let w := world2 None (fun _ => Err "db: connection reset") absent
             (Ok parsedPlain) installOk in
  never is_WriteResult (run w (http false)) = true /\
  "api" ∈ installed_after (run w (http false)) ∅.
Proof.
  intros w.
  destruct (row_write_failure_is_reported w (http false) "api"
              (newPorterApp (http false) "api" (request false)) "db: connection reset"
              eq_refl) as (_ & _ & Hres & Hin).
  - in_run.
  - split; [exact Hres|exact (Hin ∅)].
Defined.

Lemma first_deploy_event_witness :
  exists saved,
    consecutive
      [EUpdatePorterApp
         (newPorterApp (http false) "api"
            (effective_request (request false) (run firstDeploy (http false))))
         (Ok saved);
       ECreateEvent (mkPorterAppEvent 42 "SUCCESS" "DEPLOY" "KUBERNETES" 0 1) None;
       EWriteResult saved] (run firstDeploy (http false)) /\
    ev_PorterAppID (mkPorterAppEvent 42 "SUCCESS" "DEPLOY" "KUBERNETES" 0 1) = app_ID saved /\
    ev_revision (mkPorterAppEvent 42 "SUCCESS" "DEPLOY" "KUBERNETES" 0 1) = 1 /\
    ev_Type (mkPorterAppEvent 42 "SUCCESS" "DEPLOY" "KUBERNETES" 0 1) = "DEPLOY" /\
    ev_Status (mkPorterAppEvent 42 "SUCCESS" "DEPLOY" "KUBERNETES" 0 1) = "SUCCESS".
Proof.
  apply (first_deploy_event firstDeploy (http false) "api" (request false)
           (mkPorterAppEvent 42 "SUCCESS" "DEPLOY" "KUBERNETES" 0 1) None eq_refl eq_refl).
  - vm_compute. reflexivity.
  - in_run.
Defined.

Lemma update_event_revision_witness :
  exists rel conf upgraded,
    In (EGetRelease "api" (Ok rel)) (run redeployed (http false)) /\
    icc_Name conf = "api" /\
    In (EUpgradeInstallChart conf (Ok upgraded)) (run redeployed (http false)) /\
    ev_revision (mkPorterAppEvent 42 "SUCCESS" "DEPLOY" "KUBERNETES" 7 5)
    = int_add (rel_Version rel) 1 /\
    ev_Type (mkPorterAppEvent 42 "SUCCESS" "DEPLOY" "KUBERNETES" 7 5) = "DEPLOY" /\
    ev_Status (mkPorterAppEvent 42 "SUCCESS" "DEPLOY" "KUBERNETES" 7 5) = "SUCCESS".
Proof.
  apply (update_event_revision redeployed (http false) "api"
           (mkPorterAppEvent 42 "SUCCESS" "DEPLOY" "KUBERNETES" 7 5) None eq_refl).
  - vm_compute. reflexivity.
  - in_run.
Defined.

Lemma job_table_rows_followed_witness :
  let w := world mainAndJob (Ok parsedWithJob) installOk uninstallOk (Ok storedApp) None in
  job_row_followed "api" (Ok (releaseOf "api-r" 4)) jobValues (run w (http true)).
Proof.
  intros w.
  apply (job_table_rows_followed w (http true) "api" (request true) parseArgs
           parsedWithJob (Ok (releaseOf "api-r" 4)) eq_refl eq_refl eq_refl).
  - in_run.
  - in_run.
Defined.

Lemma releases_target_the_stack_witness :
  icc_Namespace mainConf = namespaceOf "api" /\
  (icc_Name mainConf = "api" \/ icc_Name mainConf = releaseJobNameOf "api") /\
  icc_ClusterID mainConf = http_cluster_ID (http false) /\
  In (EListRegistriesByProjectID (http_cluster_ProjectID (http false))
        (Ok (icc_Registries mainConf))) (run firstDeploy (http false)).
Proof.
  apply (releases_target_the_stack firstDeploy (http false) "api" mainConf
           (Ok (releaseOf "api" 1)) eq_refl).
  left. in_run.
Defined.

End PorterAppSpec.

(** * Properties of the server start-up *)

Module ServerSpec.
Import Stack Server Scenario.

Lemma fillKey_length (bytes key key' : list ascii) (i : nat) :
  fillKey key i bytes = Returned key' -> length key' = length key.
Proof.
  revert key i. induction bytes as [|b rest IH]; simpl; intros key i.
  - by intros [= <-].
  - unfold store. case_decide; [|discriminate].
    intros Hfill. rewrite (IH _ _ Hfill). apply length_insert.
Qed.

Lemma fillKey_fits (bytes key : list ascii) (i : nat) :
  (i + length bytes <= length key)%nat ->
  fillKey key i bytes = Returned (take i key ++ bytes ++ drop (i + length bytes) key).
Proof.
  revert key i. induction bytes as [|b rest IH]; simpl; intros key i Hfit.
  - by rewrite Nat.add_0_r, take_drop.
  - unfold store. case_decide; [|lia].
    rewrite IH by (rewrite length_insert; lia).
    rewrite (take_S_r _ i b) by (apply list_lookup_insert_eq; lia).
    rewrite take_insert_ge by lia.
    rewrite drop_insert_lt by lia.
    replace (S i + length rest)%nat with (i + S (length rest))%nat by lia.
    by rewrite <- app_assoc.
Qed.

Lemma fillKey_overflows (bytes key : list ascii) (i : nat) :
  (i <= length key)%nat ->
  (length key < i + length bytes)%nat ->
  fillKey key i bytes = Panicked "index out of range".
Proof.
  revert key i. induction bytes as [|b rest IH]; simpl; intros key i Hin Hover.
  - lia.
  - unfold store. case_decide; [|reflexivity].
    apply IH; rewrite length_insert; lia.
Qed.

Lemma length_list_ascii_of_string (s : string) :
  length (list_ascii_of_string s) = String.length s.
Proof. induction s; simpl; congruence. Qed.

(** X20: an encryption key of at most 32 bytes is copied to the front of
    the 32-byte array and padded with zero bytes. *)
Theorem short_key_is_zero_padded (s : string) :
  (String.length s <= 32)%nat ->
  encryptionKey s
  = Returned (list_ascii_of_string s ++ replicate (32 - String.length s) Ascii.zero).
Proof.
  intros Hfit. unfold encryptionKey.
  rewrite fillKey_fits by (rewrite length_replicate, length_list_ascii_of_string; lia).
  rewrite length_list_ascii_of_string. simpl take. rewrite drop_replicate. reflexivity.
Qed.

(** X21: with an encryption key of more than 32 bytes the start-up panics
    on [key[i]], after the migration and before anything is served. *)
Theorem long_key_panics (env : Env) :
  (32 < String.length (Db_EncryptionKey (appConf env)))%nat ->
  adapter_New env = None ->
  AutoMigrate env = None ->
  main env = [SAdapterNew None; SAutoMigrate None; SPanic "index out of range"].
Proof.
  intros Hlong Hdb Hmig. unfold main, encryptionKey. rewrite Hdb, Hmig.
  rewrite fillKey_overflows; [reflexivity|lia|].
  rewrite length_replicate, length_list_ascii_of_string. lia.
Qed.

Lemma encryptionKey_cases (s : string) :
  ((String.length s <= 32)%nat /\ exists key, encryptionKey s = Returned key) \/
  ((32 < String.length s)%nat /\ encryptionKey s = Panicked "index out of range").
Proof.
  destruct (decide (String.length s <= 32)%nat) as [Hle|Hgt].
  - left. split; [assumption|]. eexists. unfold encryptionKey. apply fillKey_fits.
    rewrite length_replicate, length_list_ascii_of_string. simpl. lia.
  - right. split; [lia|]. unfold encryptionKey. apply fillKey_overflows; [lia|].
    rewrite length_replicate, length_list_ascii_of_string. lia.
Qed.

Lemma listens_ready (env : Env) :
  existsb is_ListenAndServe (main env) = true ->
  adapter_New env = None /\
  AutoMigrate env = None /\
  (String.length (Db_EncryptionKey (appConf env)) <= 32)%nat /\
  (Redis_Enabled (appConf env) = true -> NewRedisClient env = None).
Proof.
  unfold main.
  destruct (adapter_New env) as [e|]; simpl; [discriminate|].
  destruct (AutoMigrate env) as [e|]; simpl; [discriminate|].
  destruct (encryptionKey_cases (Db_EncryptionKey (appConf env)))
    as [[Hlen [key ->]]|[Hlen ->]]; simpl; [|discriminate].
  destruct (Redis_Enabled (appConf env)); simpl.
  - destruct (NewRedisClient env) as [e|]; simpl; [discriminate|].
    by intros _.
  - intros _. repeat split; [assumption|discriminate].
Qed.

(** X22: the server listens exactly when the database opened and migrated,
    the key fits and Redis, if enabled, opened; the outcome of [api.New]
    plays no part. *)
Theorem listens_exactly_when_ready (env : Env) :
  existsb is_ListenAndServe (main env) = true <->
  adapter_New env = None /\
  AutoMigrate env = None /\
  (String.length (Db_EncryptionKey (appConf env)) <= 32)%nat /\
  (Redis_Enabled (appConf env) = true -> NewRedisClient env = None).
Proof.
  unfold main.
  destruct (adapter_New env) as [e|]; simpl;
    [split; [discriminate|by intros (? & _)]|].
  destruct (AutoMigrate env) as [e|]; simpl;
    [split; [discriminate|by intros (_ & ? & _)]|].
  destruct (encryptionKey_cases (Db_EncryptionKey (appConf env)))
    as [[Hlen [key ->]]|[Hlen ->]]; simpl;
    [|split; [discriminate|intros (_ & _ & ? & _); lia]].
  destruct (Redis_Enabled (appConf env)); simpl.
  - destruct (NewRedisClient env) as [e|]; simpl.
    + split; [discriminate|]. intros (_ & _ & _ & Hredis). by specialize (Hredis eq_refl).
    + split; [|reflexivity]. by intros _.
  - split; [|reflexivity]. intros _. repeat split; [assumption|discriminate].
Qed.

(** X23: once the server has listened, the process ends in a fatal error
    exactly when [ListenAndServe] returned an error other than
    [ErrServerClosed]. *)
Theorem fatal_after_listening (env : Env) :
  existsb is_ListenAndServe (main env) = true ->
  existsb is_Fatal (main env) = true <->
  exists err, ListenAndServe env = Some err /\ err <> ErrServerClosed.
Proof.
  intros Hlisten.
  apply listens_ready in Hlisten as (Hdb & Hmig & Hlen & Hredis).
  unfold main. rewrite Hdb, Hmig.
  destruct (encryptionKey_cases (Db_EncryptionKey (appConf env)))
    as [[_ [key ->]]|[Hlong _]]; [|lia].
  assert (Hserve : existsb is_Fatal (serve env) = true <->
                   exists err, ListenAndServe env = Some err /\ err <> ErrServerClosed).
  { unfold serve. destruct (ListenAndServe env) as [err|]; simpl.
    - case_decide as Hclosed; simpl.
      + split; [discriminate|]. by intros (? & [= <-] & ?).
      + split; [|reflexivity]. intros _. by exists err.
    - split; [discriminate|]. by intros (? & ? & _). }
  destruct (Redis_Enabled (appConf env)); simpl; [|exact Hserve].
  rewrite (Hredis eq_refl). simpl. exact Hserve.
Qed.

Lemma short_key_is_zero_padded_witness :
  encryptionKey "s3cret"
  = Returned (list_ascii_of_string "s3cret" ++ replicate (32 - String.length "s3cret") Ascii.zero).
Proof. apply (short_key_is_zero_padded "s3cret"). simpl. lia. Defined.

Lemma long_key_panics_witness :
  main longKeyEnv = [SAdapterNew None; SAutoMigrate None; SPanic "index out of range"].
Proof. apply (long_key_panics longKeyEnv); [simpl; lia|reflexivity|reflexivity]. Defined.

Lemma fatal_after_listening_witness :
  existsb is_Fatal (main portTakenEnv) = true <->
  exists err, ListenAndServe portTakenEnv = Some err /\ err <> ErrServerClosed.
Proof. apply (fatal_after_listening portTakenEnv). vm_compute. reflexivity. Defined.

End ServerSpec.

(** * Properties of the activity feed *)

Module ActivityFeedSpec.
Import ActivityFeed.

Section Feed.
Context {A : Type}.

Lemma getEvents_keeps_error (outcome : Settled A) :
  outcome <> Rejected None -> Forall keeps_error (getEvents outcome).
Proof.
  intros Houtcome. destruct outcome as [res|[err|]]; simpl;
    repeat constructor; try discriminate. contradiction.
Qed.

(** X24: once an error is shown it stays: no later fetch, successful or
    failed with a truthy reason, and no page change brings the feed back. *)
Theorem error_is_sticky (s : State A) (outcomes : list (Z * Settled A)) :
  is_Some (error s) ->
  Forall (fun o => o.2 <> Rejected None) outcomes ->
  render (foldl apply s (outcomes ≫= fun o => SetPage o.1 :: getEvents o.2)) = ErrorView.
Proof.
  intros Herr Houtcomes.
  assert (Hkeep : Forall keeps_error (outcomes ≫= fun o => SetPage o.1 :: getEvents o.2)).
  { apply Forall_bind. eapply Forall_impl; [exact Houtcomes|].
    intros [p o] Ho. constructor; [discriminate|]. by apply getEvents_keeps_error. }
  clear Houtcomes. revert s Herr.
  induction Hkeep as [|u updates Hu _ IH]; intros s Herr; simpl.
  - unfold render. by rewrite bool_decide_eq_true_2.
  - apply IH. destruct u as [| |[e|]| |]; simpl; try assumption; [by eexists|].
    by destruct Hu.
Qed.

(** X25: in the feed every entry but the last shows the connecting line
    and the last one does not: the test [events.length > 1] changes
    nothing. *)
Theorem line_on_all_but_last (s : State A) (items : list (Item A)) (pagination : bool)
    (i : nat) (item : Item A) :
  render s = FeedView items pagination ->
  items !! i = Some item ->
  isLast item = bool_decide (S i = length items) /\
  showLine item = negb (isLast item).
Proof.
  unfold render. case_bool_decide; [discriminate|].
  destruct (loading s); [discriminate|].
  destruct (events s) as [l|]; [|discriminate].
  intros Hrender Hi.
  assert (items = imap (entry (Z.of_nat (length l))) l) as ->
    by (destruct l; [discriminate Hrender|injection Hrender as <- _; reflexivity]).
  rewrite length_imap.
  apply list_lookup_imap_Some in Hi as (event & Hevent & ->).
  apply lookup_lt_Some in Hevent. unfold entry. simpl in *.
  split.
  - case_bool_decide; [apply Z.eqb_eq|apply Z.eqb_neq]; lia.
  - destruct (Z.of_nat i =? _)%Z eqn:Hlast; simpl; [reflexivity|].
    apply Z.eqb_neq in Hlast. apply Z.ltb_lt. lia.
Qed.


End Feed.

Lemma error_is_sticky_witness :
  render (foldl apply (mkState (Some [1%nat; 2%nat]) false (Some "Network Error") 1 3)
            ([(2, Resolved (mkResponse 3 (Some [3%nat])))]
               ≫= fun o => SetPage o.1 :: getEvents o.2))
  = ErrorView.
Proof.
  apply (error_is_sticky (mkState (Some [1%nat; 2%nat]) false (Some "Network Error") 1 3)
           [(2, Resolved (mkResponse 3 (Some [3%nat])))]).
  - by eexists.
  - repeat constructor. discriminate.
Defined.

Lemma line_on_all_but_last_witness :
  isLast (mkItem 20%nat 1 false true) = bool_decide (2%nat = 3%nat) /\
  showLine (mkItem 20%nat 1 false true) = negb (isLast (mkItem 20%nat 1 false true)).
Proof.
  apply (line_on_all_but_last (mkState (Some [10%nat; 20%nat; 30%nat]) false None 1 1)
           [mkItem 10%nat 0 false true; mkItem 20%nat 1 false true;
            mkItem 30%nat 2 true false] false 1 (mkItem 20%nat 1 false true));
    reflexivity.
Defined.

End ActivityFeedSpec.

(** * Properties of the datastore list *)

Module DatastoresSpec.
Import Datastores Scenario.

Lemma find_existsb {A : Type} (p : A -> bool) (l : list A) :
  existsb p l = match List.find p l with Some _ => true | None => false end.
Proof.
  induction l as [|x l IH]; simpl; [reflexivity|]. by destruct (p x).
Qed.

(** X27: with [valueExists] telling values from [null], the datastores
    kept are those with a matching template, in the order received, each
    with the first template of the table that matches it. *)
Theorem kept_datastores_have_templates (templates : list Template)
    (valueExists : option (Datastore * Template) -> bool)
    (datastores : list Datastore) :
  (forall o, valueExists o = match o with Some _ => true | None => false end) ->
  exists kept,
    withTemplates templates valueExists datastores = map Some kept /\
    map fst kept = List.filter (fun d => existsb (matches d) templates) datastores /\
    Forall (fun dt =>
              List.find (matches dt.1) templates = Some dt.2 /\
              In dt.2 templates /\ matches dt.1 dt.2 = true) kept.
Proof.
  intros Hexists. unfold withTemplates.
  induction datastores as [|d ds (kept & Heq & Hfst & Hall)]; simpl.
  - by exists [].
  - rewrite find_existsb.
    destruct (List.find (matches d) templates) as [t|] eqn:Hfind.
    + rewrite Hexists.
      exists ((d, t) :: kept). simpl. rewrite Heq, Hfst.
      repeat split. constructor; [|assumption].
      split; [exact Hfind|by apply find_some in Hfind].
    + rewrite Hexists. by exists kept.
Qed.

(** X28: the flag that lets the query run and the early return of the
    query function test the same thing: the function returns early exactly
    when the query is disabled, and a project id of 0 counts as no project. *)
Theorem early_return_iff_disabled (currentProject : option Z) :
  noProject currentProject = negb (enabled currentProject).
Proof.
  destruct currentProject as [id|]; simpl; [|reflexivity].
  by rewrite negb_andb, !negb_involutive.
Qed.


(** X29: the query rejects exactly when it is enabled and the listing call
    or the validation of its response rejects, with that reason; it never
    rejects without a project. *)
Theorem query_rejects_exactly {Raw : Type} (templates : list Template)
    (valueExists : option (Datastore * Template) -> bool)
    (listDatastores : Z -> result Raw) (parseAsync : Raw -> result (list Datastore))
    (currentProject : option Z) (e : error) :
  queryFn templates valueExists listDatastores parseAsync currentProject = Err e <->
  exists id,
    currentProject = Some id /\
    enabled currentProject = true /\
    (listDatastores id = Err e \/
     exists raw, listDatastores id = Ok raw /\ parseAsync raw = Err e).
Proof.
  unfold queryFn, noProject.
  destruct currentProject as [id|]; simpl;
    [|split; [discriminate|by intros (? & ? & _)]].
  rewrite <- negb_orb.
  destruct ((id =? 0)%Z || (id =? -1)%Z); simpl;
    [split; [discriminate|by intros (? & _ & ? & _)]|].
  split.
  - intros H. exists id. split; [reflexivity|]. split; [reflexivity|].
    destruct (listDatastores id) as [raw|e']; [|left; congruence].
    right. exists raw. split; [reflexivity|].
    destruct (parseAsync raw); [discriminate H|congruence].
  - intros (id' & [= <-] & _ & [H|(raw & Hlist & Hparse)]).
    + by rewrite H.
    + by rewrite Hlist, Hparse.
Qed.

Lemma kept_datastores_have_templates_witness :
  exists kept,
    withTemplates someTemplates notNull someDatastores = map Some kept /\
    map fst kept = List.filter (fun d => existsb (matches d) someTemplates) someDatastores /\
    Forall (fun dt =>
              List.find (matches dt.1) someTemplates = Some dt.2 /\
              In dt.2 someTemplates /\ matches dt.1 dt.2 = true) kept.
Proof.
  apply (kept_datastores_have_templates someTemplates notNull someDatastores).
  intros o. reflexivity.
Defined.

End DatastoresSpec.
